(** * SynthSeg training driver: a shallow embedding of [training.py]

    The file embeds [Models/SynthSeg/SynthSeg/training.py]: the two functions
    [training] and [train_model], together with the Python primitives they
    rely on (substring test, [str.split], slicing, [int], ['%03d'] formatting,
    [os.path.join], [os.path.basename], [np.unique]).

    Calls into Keras, lab2im and neuron are effects: each call is recorded as
    an event of a trace, and the objects these libraries return are symbolic
    terms naming the call that produced them.  A run of the driver is a pair
    of the trace it produced and either a value or the exception that stopped
    it.  Paths follow the POSIX flavour of [os.path]; a character of a
    string is a code point below 256. *)

From Stdlib Require Import ZArith NArith List String Ascii Bool Lia.
From Stdlib Require Import DecimalString DecimalN DecimalPos.
From Stdlib Require Import Permutation Sorted.
Import ListNotations.

Set Warnings "-register-all".

Local Open Scope string_scope.
Local Open Scope Z_scope.

(* ===================================================================== *)
(** ** Python exceptions and results *)

Inductive exn : Type :=
| AssertionError (msg : string)
| IndexError
| ValueError.

Inductive result (A : Type) : Type :=
| Ok (a : A)
| Raise (e : exn).

Arguments Ok {A} a.
Arguments Raise {A} e.

Definition result_bind {A B : Type} (r : result A) (k : A -> result B) : result B :=
  match r with
  | Ok a => k a
  | Raise e => Raise e
  end.

(* ===================================================================== *)
(** ** Python string primitives *)

Module PyStr.

(** [s[n:]] for a non-negative [n]. *)
Fixpoint drop (n : nat) (s : string) : string :=
  match n, s with
  | O, _ => s
  | S _, EmptyString => EmptyString
  | S k, String _ r => drop k r
  end.

(** [s[:n]] for a non-negative [n]. *)
Fixpoint take (n : nat) (s : string) : string :=
  match n, s with
  | O, _ => EmptyString
  | S _, EmptyString => EmptyString
  | S k, String c r => String c (take k r)
  end.

(** Python's normalisation of a slice bound against a length:
    a negative bound counts from the end, and both are clipped to [0, len]. *)
Definition clip_bound (i len : Z) : Z :=
  if i <? 0 then Z.max 0 (i + len) else Z.min i len.

(** [s[start:stop]] with step 1. *)
Definition slice (s : string) (start stop : Z) : string :=
  let len := Z.of_nat (String.length s) in
  let a := clip_bound start len in
  let b := clip_bound stop len in
  take (Z.to_nat (b - a)) (drop (Z.to_nat a) s).

(** [needle in hay] on strings. *)
Fixpoint contains (needle hay : string) : bool :=
  prefix needle hay ||
  match hay with
  | EmptyString => false
  | String _ r => contains needle r
  end.

(** The scan of [str.split(sep)] for a non-empty [sep], left to right over
    non-overlapping occurrences.  [skip] counts the characters of a matched
    separator that are still to be passed over; [cur] is the piece read so
    far. *)
Fixpoint split_scan (sep : string) (skip : nat) (cur : string) (s : string)
  : list string :=
  match s with
  | EmptyString => [cur]
  | String c r =>
      match skip with
      | S k => split_scan sep k cur r
      | O =>
          if prefix sep s
          then cur :: split_scan sep (Nat.pred (String.length sep)) EmptyString r
          else split_scan sep O (cur ++ String c EmptyString) r
      end
  end.

(** [s.split(sep)]: an empty separator raises [ValueError]. *)
Definition split (s sep : string) : result (list string) :=
  match sep with
  | EmptyString => Raise ValueError
  | _ => Ok (split_scan sep O EmptyString s)
  end.

(** [l[i]] on a list, for a non-negative index. *)
Definition index {A : Type} (l : list A) (i : nat) : result A :=
  match nth_error l i with
  | Some x => Ok x
  | None => Raise IndexError
  end.

(** Characters that [int] drops around a literal: tab, line feed, vertical
    tab, form feed, carriage return and space, and the two spaces above 126
    (next line, no-break space) that CPython turns into a space before it
    parses.  The separators 28 to 31 are not among them. *)
Definition is_space (c : ascii) : bool :=
  let n := nat_of_ascii c in
  ((9 <=? n) && (n <=? 13))%nat || (n =? 32)%nat || (n =? 133)%nat || (n =? 160)%nat.

Definition is_digit (c : ascii) : bool :=
  let n := nat_of_ascii c in
  ((48 <=? n) && (n <=? 57))%nat.

Definition digit_val (c : ascii) : Z := Z.of_nat (nat_of_ascii c) - 48.

Fixpoint lstrip (s : string) : string :=
  match s with
  | EmptyString => EmptyString
  | String c r => if is_space c then lstrip r else s
  end.

Fixpoint rstrip (s : string) : string :=
  match s with
  | EmptyString => EmptyString
  | String c r =>
      match rstrip r with
      | EmptyString => if is_space c then EmptyString else String c EmptyString
      | r' => String c r'
      end
  end.

Definition strip (s : string) : string := rstrip (lstrip s).

(** The digits of an integer literal as [int] reads them: at least one digit,
    and single underscores allowed between digits only.  [after_digit] tells
    whether the previous character was a digit. *)
Fixpoint int_digits (acc : Z) (after_digit : bool) (s : string) : option Z :=
  match s with
  | EmptyString => if after_digit then Some acc else None
  | String c r =>
      if is_digit c then int_digits (10 * acc + digit_val c) true r
      else if (Ascii.eqb c "_" && after_digit)%bool then int_digits acc false r
      else None
  end.

(** [int(s)] in base 10: surrounding whitespace is dropped, one sign is
    allowed, anything else raises [ValueError]. *)
Definition int (s : string) : result Z :=
  let t := strip s in
  let '(neg, body) :=
    match t with
    | String "-" r => (true, r)
    | String "+" r => (false, r)
    | _ => (false, t)
    end in
  match int_digits 0 false body with
  | Some n => Ok (if neg then - n else n)
  | None => Raise ValueError
  end.

(** The decimal digits of a natural number, as [str] and ['%d'] print them. *)
Definition digits (n : N) : string := NilEmpty.string_of_uint (N.to_uint n).

Fixpoint zeros (k : nat) : string :=
  match k with
  | O => EmptyString
  | S k' => String "0" (zeros k')
  end.

(** ['%03d' % z]: the sign, then the digits padded with zeros on the left so
    that the whole has at least three characters. *)
Definition fmt_03d (z : Z) : string :=
  let ds := digits (Z.to_N (Z.abs z)) in
  let sign := if z <? 0 then "-" else "" in
  sign ++ zeros (3 - String.length sign - String.length ds) ++ ds.

(** [str(z)], which is also what ['{0}'.format(z)] prints. *)
Definition str_of_int (z : Z) : string :=
  (if z <? 0 then "-" else "") ++ digits (Z.to_N (Z.abs z)).

(** [t.format(epoch=e)] on the fragment of templates whose replacement
    fields are all [{epoch:03d}]: literal text is copied, a doubled brace
    stands for one brace.  [None] marks a template outside this fragment
    (another field, or a lone brace). *)
Fixpoint format_scan (e : Z) (skip : nat) (t : string) : option string :=
  match t with
  | EmptyString => Some EmptyString
  | String c r =>
      match skip with
      | S k => format_scan e k r
      | O =>
          if prefix "{epoch:03d}" t then
            option_map (append (fmt_03d e)) (format_scan e 10 r)
          else if prefix "{{" t then
            option_map (String "{") (format_scan e 1 r)
          else if prefix "}}" t then
            option_map (String "}") (format_scan e 1 r)
          else if (Ascii.eqb c "{" || Ascii.eqb c "}")%bool then None
          else option_map (String c) (format_scan e O r)
      end
  end.

Definition format_epoch (t : string) (e : Z) : option string := format_scan e O t.

End PyStr.

(* ===================================================================== *)
(** ** [os.path] (posixpath) *)

Module PosixPath.

(** [s.rfind(c)]: the index of the last [c] in [s], or [-1]. *)
Fixpoint rfind (c : ascii) (s : string) : Z :=
  match s with
  | EmptyString => -1
  | String a r =>
      let k := rfind c r in
      if 0 <=? k then k + 1
      else if Ascii.eqb a c then 0 else -1
  end.

(** [os.path.basename(p)]: [i = p.rfind('/') + 1; return p[i:]]. *)
Definition basename (p : string) : string :=
  let i := rfind "/" p + 1 in
  PyStr.drop (Z.to_nat i) p.

Fixpoint ends_with_slash (s : string) : bool :=
  match s with
  | EmptyString => false
  | String c EmptyString => Ascii.eqb c "/"
  | String _ r => ends_with_slash r
  end.

(** [os.path.join(a, b)] with two components: an absolute [b] replaces [a];
    otherwise [b] is appended, after a separator unless [a] is empty or ends
    with one. *)
Definition join (a b : string) : string :=
  if prefix "/" b then b
  else match a with
       | EmptyString => b
       | _ => if ends_with_slash a then a ++ b else a ++ "/" ++ b
       end.

End PosixPath.

(* ===================================================================== *)
(** ** Values handed through to the libraries *)

(** Arguments that [training] only forwards: [None], booleans, integers,
    decimal literals ([PFloat m e] is [m * 10^e]), strings (paths, names) and
    sequences.  [PFloatPow b e] is the float that [b ** e] yields for a
    negative integer exponent. *)
Inductive pyval : Type :=
| PNone
| PBool (b : bool)
| PInt (z : Z)
| PFloat (m e : Z)
| PFloatPow (b e : Z)
| PStr (s : string)
| PSeq (l : list pyval).

(** [b ** n] on Python integers. *)
Definition py_pow (b n : Z) : pyval :=
  if 0 <=? n then PInt (b ^ n) else PFloatPow b n.

(** [np.unique] on a one-dimensional integer array: the sorted distinct
    values.  [insert_unique] places a value in an ascending list that has no
    repetition. *)
Fixpoint insert_unique (x : Z) (l : list Z) : list Z :=
  match l with
  | [] => [x]
  | h :: t =>
      if x <? h then x :: l
      else if x =? h then l
      else h :: insert_unique x t
  end.

Definition np_unique (l : list Z) : list Z := fold_right insert_unique [] l.

(** The keyword arguments of the [BrainGenerator] constructor. *)
Record brain_generator_args : Type := mk_brain_generator_args {
  bg_labels_dir : string;
  bg_generation_labels : list Z;
  bg_n_neutral_labels : pyval;
  bg_output_labels : list Z;
  bg_subjects_prob : pyval;
  bg_batchsize : pyval;
  bg_n_channels : pyval;
  bg_target_res : pyval;
  bg_output_shape : pyval;
  bg_output_div_by_n : pyval;
  bg_generation_classes : pyval;
  bg_prior_distributions : pyval;
  bg_prior_means : pyval;
  bg_prior_stds : pyval;
  bg_use_specific_stats_for_channel : pyval;
  bg_mix_prior_and_random : pyval;
  bg_flipping : pyval;
  bg_scaling_bounds : pyval;
  bg_rotation_bounds : pyval;
  bg_shearing_bounds : pyval;
  bg_translation_bounds : pyval;
  bg_nonlin_std : pyval;
  bg_nonlin_scale : pyval;
  bg_randomise_res : pyval;
  bg_max_res_iso : pyval;
  bg_max_res_aniso : pyval;
  bg_data_res : pyval;
  bg_thickness : pyval;
  bg_bias_field_std : pyval;
  bg_bias_scale : pyval;
  bg_return_gradients : pyval
}.

(** Objects returned by the libraries, named by the call that made them. *)
Inductive shape : Type :=
| ModelOutputShape (bg : brain_generator_args).

Inductive generator : Type :=
| ModelInputsGenerator (bg : brain_generator_args)
| TrainingGenerator (g : generator) (batchsize : pyval).

Inductive model : Type :=
| LabelsToImageModel (bg : brain_generator_args)
| Unet (input_model : model) (input_shape : shape) (nb_labels : nat)
       (nb_levels : Z) (nb_conv_per_level conv_size nb_features feat_mult
        activation : pyval) (batch_norm : Z) (name : string)
| LayerOutputModel (m : model) (layer : string)
| MetricsModel (m : model) (labels : list Z) (metric : string)
| LoadedModel (path : string).

Inductive optimizer : Type :=
| Adam (lr : pyval).

Inductive loss : Type :=
| IdentityLoss.

Inductive callback : Type :=
| ModelCheckpoint (filepath : string) (verbose : Z)
| TensorBoard (log_dir : string) (histogram_freq : Z) (write_graph write_images : bool).

(** One event per call into Keras, lab2im or neuron. *)
Inductive event : Type :=
| EvBrainGenerator (a : brain_generator_args)
| EvUnet (built : model)
| EvBuildTrainingGenerator (g : generator) (batchsize : pyval)
| EvModel (m : model) (layer : string)
| EvMetricsModel (m : model) (labels : list Z) (metric : string)
| EvMkdir (path : string)
| EvLoadModel (path : string)
| EvLoadWeights (m : model) (path : string) (by_name : bool)
| EvCompile (m : model) (opt : optimizer) (l : loss)
| EvFitGenerator (m : model) (g : generator) (epochs steps_per_epoch : Z)
                 (callbacks : list callback) (initial_epoch : Z).

(* ===================================================================== *)
(** ** Runs: a trace of events and a result *)

Definition run (A : Type) : Type := (list event * result A)%type.

Definition ret {A : Type} (a : A) : run A := ([], Ok a).

Definition bind {A B : Type} (m : run A) (k : A -> run B) : run B :=
  match m with
  | (t, Ok a) => let '(t', r) := k a in ((t ++ t')%list, r)
  | (t, Raise e) => (t, Raise e)
  end.

Definition emit (e : event) : run unit := ([e], Ok tt).

Definition lift {A : Type} (r : result A) : run A := ([], r).

Declare Scope run_scope.
Delimit Scope run_scope with run.
Notation "x <- m ;; k" := (bind m (fun x => k))
  (at level 61, m at next level, right associativity) : run_scope.
Notation "m ;;; k" := (bind m (fun _ => k))
  (at level 61, right associativity) : run_scope.

(* ===================================================================== *)
(** ** [train_model] *)

(** [int(os.path.basename(path_checkpoint).split(metric_type)[1][1:-3])]. *)
Definition parse_epoch (metric_type path_checkpoint : string) : result Z :=
  result_bind (PyStr.split (PosixPath.basename path_checkpoint) metric_type)
    (fun parts =>
  result_bind (PyStr.index parts 1)
    (fun piece =>
  PyStr.int (PyStr.slice piece 1 (-3)))).

(** The value of [init_epoch] after the first test on the checkpoint. *)
Definition init_epoch_of (metric_type : string) (path_checkpoint : option string)
  : result Z :=
  match path_checkpoint with
  | None => Ok 0
  | Some p =>
      if PyStr.contains metric_type p then parse_epoch metric_type p else Ok 0
  end.

(** ['%s_{epoch:03d}.h5' % metric_type], joined to [model_dir]. *)
Definition save_file_name (model_dir metric_type : string) : string :=
  PosixPath.join model_dir (metric_type ++ "_{epoch:03d}.h5").

(** The callback list: the model-saving callback, then TensorBoard for the
    dice phase. *)
Definition callbacks_of (model_dir metric_type : string) : list callback :=
  let log_dir := PosixPath.join model_dir "logs" in
  let callbacks := [ModelCheckpoint (save_file_name model_dir metric_type) 1] in
  if String.eqb metric_type "dice"
  then callbacks ++ [TensorBoard log_dir 0 true false]
  else callbacks.

Local Open Scope run_scope.

(** The block under [if path_checkpoint is not None]: it leaves the model to
    train, [compile_model] and [init_epoch]. *)
Definition restore (m : model) (metric_type : string)
    (path_checkpoint : option string) (reinitialise_momentum : bool)
  : run (model * bool * Z) :=
  match path_checkpoint with
  | None => ret (m, true, 0)
  | Some p =>
      init_epoch <- lift (if PyStr.contains metric_type p
                          then parse_epoch metric_type p else Ok 0) ;;
      if (negb reinitialise_momentum && PyStr.contains metric_type p)%bool
      then emit (EvLoadModel p) ;;; ret (LoadedModel p, false, init_epoch)
      else emit (EvLoadWeights m p true) ;;; ret (m, true, init_epoch)
  end.

Definition train_model (m : model) (g : generator) (learning_rate : pyval)
    (n_epochs n_steps : Z) (model_dir metric_type : string)
    (path_checkpoint : option string) (reinitialise_momentum : bool)
  : run unit :=
  emit (EvMkdir model_dir) ;;;
  emit (EvMkdir (PosixPath.join model_dir "logs")) ;;;
  let callbacks := callbacks_of model_dir metric_type in
  st <- restore m metric_type path_checkpoint reinitialise_momentum ;;
  let '(m', compile_model, init_epoch) := st in
  (if compile_model : bool
   then emit (EvCompile m' (Adam learning_rate) IdentityLoss)
   else ret tt) ;;;
  emit (EvFitGenerator m' g n_epochs n_steps callbacks init_epoch).

(* ===================================================================== *)
(** ** [training] *)

(** The arguments of [training]. *)
Record training_args : Type := mk_training_args {
  labels_dir : string;
  model_dir : string;
  generation_labels : pyval;
  n_neutral_labels : pyval;
  segmentation_labels : pyval;
  subjects_prob : pyval;
  batchsize : pyval;
  n_channels : pyval;
  target_res : pyval;
  output_shape : pyval;
  generation_classes : pyval;
  prior_distributions : pyval;
  prior_means : pyval;
  prior_stds : pyval;
  use_specific_stats_for_channel : pyval;
  mix_prior_and_random : pyval;
  flipping : pyval;
  scaling_bounds : pyval;
  rotation_bounds : pyval;
  shearing_bounds : pyval;
  translation_bounds : pyval;
  nonlin_std : pyval;
  nonlin_scale : pyval;
  randomise_res : pyval;
  max_res_iso : pyval;
  max_res_aniso : pyval;
  data_res : pyval;
  thickness : pyval;
  bias_field_std : pyval;
  bias_scale : pyval;
  return_gradients : pyval;
  n_levels : Z;
  nb_conv_per_level : pyval;
  conv_size : pyval;
  unet_feat_count : pyval;
  feat_multiplier : pyval;
  activation : pyval;
  lr : pyval;
  wl2_epochs : Z;
  dice_epochs : Z;
  steps_per_epoch : Z;
  checkpoint : option string
}.

(** The message of the assertion on the epochs. *)
Definition epochs_message (wl2 dice : Z) : string :=
  "either wl2_epochs or dice_epochs must be positive, had "
  ++ PyStr.str_of_int wl2 ++ " and " ++ PyStr.str_of_int dice.

Section Training.

(** [utils.get_list_labels(label_list, labels_dir)] of lab2im, which the
    driver calls and whose code is not part of this file: it returns the
    label values as an integer array (its second result is dropped). *)
Variable get_list_labels : pyval -> option string -> list Z.

(** The label lists after [# get label lists]. *)
Definition resolved_generation_labels (a : training_args) : list Z :=
  get_list_labels (generation_labels a) (Some (labels_dir a)).

Definition resolved_segmentation_labels (a : training_args) : list Z :=
  match segmentation_labels a with
  | PNone => resolved_generation_labels a
  | l => get_list_labels l None
  end.

Definition n_segmentation_labels (a : training_args) : nat :=
  List.length (np_unique (resolved_segmentation_labels a)).

(** The arguments with which [BrainGenerator] is instantiated. *)
Definition brain_generator_of (a : training_args) : brain_generator_args :=
  {| bg_labels_dir := labels_dir a;
     bg_generation_labels := resolved_generation_labels a;
     bg_n_neutral_labels := n_neutral_labels a;
     bg_output_labels := resolved_segmentation_labels a;
     bg_subjects_prob := subjects_prob a;
     bg_batchsize := batchsize a;
     bg_n_channels := n_channels a;
     bg_target_res := target_res a;
     bg_output_shape := output_shape a;
     bg_output_div_by_n := py_pow 2 (n_levels a);
     bg_generation_classes := generation_classes a;
     bg_prior_distributions := prior_distributions a;
     bg_prior_means := prior_means a;
     bg_prior_stds := prior_stds a;
     bg_use_specific_stats_for_channel := use_specific_stats_for_channel a;
     bg_mix_prior_and_random := mix_prior_and_random a;
     bg_flipping := flipping a;
     bg_scaling_bounds := scaling_bounds a;
     bg_rotation_bounds := rotation_bounds a;
     bg_shearing_bounds := shearing_bounds a;
     bg_translation_bounds := translation_bounds a;
     bg_nonlin_std := nonlin_std a;
     bg_nonlin_scale := nonlin_scale a;
     bg_randomise_res := randomise_res a;
     bg_max_res_iso := max_res_iso a;
     bg_max_res_aniso := max_res_aniso a;
     bg_data_res := data_res a;
     bg_thickness := thickness a;
     bg_bias_field_std := bias_field_std a;
     bg_bias_scale := bias_scale a;
     bg_return_gradients := return_gradients a |}.

(** The segmentation network handed to [nrn_models.unet]. *)
Definition unet_of (a : training_args) : model :=
  let bg := brain_generator_of a in
  Unet (LabelsToImageModel bg) (ModelOutputShape bg) (n_segmentation_labels a)
       (n_levels a) (nb_conv_per_level a) (conv_size a) (unet_feat_count a)
       (feat_multiplier a) (activation a) (-1) "unet".

Definition training (a : training_args) : run unit :=
  (* check epochs *)
  (if ((wl2_epochs a >? 0) || (dice_epochs a >? 0))%bool
   then ret tt
   else lift (Raise (AssertionError (epochs_message (wl2_epochs a) (dice_epochs a))))) ;;;
  (* get label lists *)
  let seg_labels := resolved_segmentation_labels a in
  (* instantiate BrainGenerator object *)
  let bg := brain_generator_of a in
  emit (EvBrainGenerator bg) ;;;
  (* prepare the segmentation model *)
  let unet_model := unet_of a in
  emit (EvUnet unet_model) ;;;
  (* input generator *)
  let input_generator := TrainingGenerator (ModelInputsGenerator bg) (batchsize a) in
  emit (EvBuildTrainingGenerator (ModelInputsGenerator bg) (batchsize a)) ;;;
  (* pre-training with weighted L2 *)
  ckpt <- (if wl2_epochs a >? 0
           then
             emit (EvModel unet_model "unet_likelihood") ;;;
             let wl2_model := LayerOutputModel unet_model "unet_likelihood" in
             emit (EvMetricsModel wl2_model seg_labels "wl2") ;;;
             let wl2_model := MetricsModel wl2_model seg_labels "wl2" in
             train_model wl2_model input_generator (lr a) (wl2_epochs a)
                         (steps_per_epoch a) (model_dir a) "wl2" (checkpoint a) false ;;;
             ret (Some (PosixPath.join (model_dir a)
                          ("wl2_" ++ PyStr.fmt_03d (wl2_epochs a) ++ ".h5")))
           else ret (checkpoint a)) ;;
  (* fine-tuning with dice metric *)
  emit (EvMetricsModel unet_model seg_labels "dice") ;;;
  let dice_model := MetricsModel unet_model seg_labels "dice" in
  train_model dice_model input_generator (lr a) (dice_epochs a)
              (steps_per_epoch a) (model_dir a) "dice" ckpt false.

End Training.

Local Close Scope run_scope.

(* ===================================================================== *)
(** ** Auxiliary notions used in the statements *)

(** Every character of [s] satisfies [p]. *)
Fixpoint all_chars (p : ascii -> bool) (s : string) : bool :=
  match s with
  | EmptyString => true
  | String c r => p c && all_chars p r
  end.

Definition other_than (c : ascii) (a : ascii) : bool := negb (Ascii.eqb a c).

Definition not_space (a : ascii) : bool := negb (PyStr.is_space a).

Definition not_brace (a : ascii) : bool :=
  negb (Ascii.eqb a "{" || Ascii.eqb a "}").

Definition brace_free (s : string) : bool := all_chars not_brace s.

(** What [os.path.join] puts in front of a relative second component. *)
Definition dir_prefix (d : string) : string :=
  match d with
  | EmptyString => EmptyString
  | _ => if PosixPath.ends_with_slash d then d else d ++ "/"
  end.

(** The file name of the snapshot of phase [tag] after epoch [e]. *)
Definition snapshot_name (tag : string) (e : Z) : string :=
  tag ++ "_" ++ PyStr.fmt_03d e ++ ".h5".

(** A first character of a tag that cannot be met again in what follows the
    tag in a snapshot name. *)
Definition tag_head_ok (c : ascii) : bool :=
  negb (PyStr.is_digit c) && other_than "_" c && other_than "." c && other_than "h" c.

(** The first instructions of [train_model]: the two directories. *)
Definition phase_setup (model_dir : string) : list event :=
  [EvMkdir model_dir; EvMkdir (PosixPath.join model_dir "logs")].

(** Whether [train_model] reloads the full model. *)
Definition reloads (metric_type : string) (path_checkpoint : option string)
    (reinitialise_momentum : bool) : bool :=
  match path_checkpoint with
  | None => false
  | Some p => negb reinitialise_momentum && PyStr.contains metric_type p
  end.

Definition is_brain_generator (ev : event) : bool :=
  match ev with EvBrainGenerator _ => true | _ => false end.

Definition is_build_generator (ev : event) : bool :=
  match ev with EvBuildTrainingGenerator _ _ => true | _ => false end.

Definition is_unet (ev : event) : bool :=
  match ev with EvUnet _ => true | _ => false end.

Definition is_fit (ev : event) : bool :=
  match ev with EvFitGenerator _ _ _ _ _ _ => true | _ => false end.

Definition is_compile (ev : event) : bool :=
  match ev with EvCompile _ _ _ => true | _ => false end.

Definition is_load (ev : event) : bool :=
  match ev with EvLoadModel _ | EvLoadWeights _ _ _ => true | _ => false end.

(** An event that a training phase fed by generator [g] may produce. *)
Definition phase_event (g : generator) (ev : event) : Prop :=
  match ev with
  | EvMkdir _ | EvLoadModel _ | EvLoadWeights _ _ _ | EvCompile _ _ _ => True
  | EvFitGenerator _ g' _ _ _ _ => g' = g
  | _ => False
  end.

Definition epochs_ok (a : training_args) : bool :=
  (wl2_epochs a >? 0) || (dice_epochs a >? 0).

(** The pieces of a run of [training], named. *)
Section TrainingPieces.

Variable get_list_labels : pyval -> option string -> list Z.

Definition input_generator_of (a : training_args) : generator :=
  TrainingGenerator (ModelInputsGenerator (brain_generator_of get_list_labels a))
                    (batchsize a).

Definition wl2_model_of (a : training_args) : model :=
  MetricsModel (LayerOutputModel (unet_of get_list_labels a) "unet_likelihood")
               (resolved_segmentation_labels get_list_labels a) "wl2".

Definition dice_model_of (a : training_args) : model :=
  MetricsModel (unet_of get_list_labels a)
               (resolved_segmentation_labels get_list_labels a) "dice".

(** What [training] does before the first phase. *)
Definition setup_events (a : training_args) : list event :=
  [EvBrainGenerator (brain_generator_of get_list_labels a);
   EvUnet (unet_of get_list_labels a);
   EvBuildTrainingGenerator
     (ModelInputsGenerator (brain_generator_of get_list_labels a)) (batchsize a)].

Definition wl2_models (a : training_args) : list event :=
  [EvModel (unet_of get_list_labels a) "unet_likelihood";
   EvMetricsModel (LayerOutputModel (unet_of get_list_labels a) "unet_likelihood")
                  (resolved_segmentation_labels get_list_labels a) "wl2"].

Definition dice_models (a : training_args) : list event :=
  [EvMetricsModel (unet_of get_list_labels a)
                  (resolved_segmentation_labels get_list_labels a) "dice"].

(** The two calls of [train_model]. *)
Definition wl2_phase (a : training_args) : run unit :=
  train_model (wl2_model_of a) (input_generator_of a) (lr a) (wl2_epochs a)
              (steps_per_epoch a) (model_dir a) "wl2" (checkpoint a) false.

Definition dice_phase (a : training_args) (ckpt : option string) : run unit :=
  train_model (dice_model_of a) (input_generator_of a) (lr a) (dice_epochs a)
              (steps_per_epoch a) (model_dir a) "dice" ckpt false.

End TrainingPieces.

(** The checkpoint that [training] hands to the dice phase after a wl2
    phase. *)
Definition wl2_snapshot (a : training_args) : string :=
  PosixPath.join (model_dir a) ("wl2_" ++ PyStr.fmt_03d (wl2_epochs a) ++ ".h5").

(** The model that [train_model] compiles and fits. *)
Definition model_after_restore (m : model) (metric_type : string)
    (path_checkpoint : option string) (reinitialise_momentum : bool) : model :=
  match path_checkpoint with
  | Some p =>
      if reloads metric_type path_checkpoint reinitialise_momentum
      then LoadedModel p else m
  | None => m
  end.

(** The default values of the signature of [training]. *)
Definition default_args (labels model : string) : training_args :=
  {| labels_dir := labels;
     model_dir := model;
     generation_labels := PNone;
     n_neutral_labels := PNone;
     segmentation_labels := PNone;
     subjects_prob := PNone;
     batchsize := PInt 1;
     n_channels := PInt 1;
     target_res := PNone;
     output_shape := PNone;
     generation_classes := PNone;
     prior_distributions := PStr "uniform";
     prior_means := PNone;
     prior_stds := PNone;
     use_specific_stats_for_channel := PBool false;
     mix_prior_and_random := PBool false;
     flipping := PBool true;
     scaling_bounds := PFloat 2 (-1);
     rotation_bounds := PInt 15;
     shearing_bounds := PFloat 12 (-3);
     translation_bounds := PBool false;
     nonlin_std := PFloat 4 0;
     nonlin_scale := PFloat 4 (-2);
     randomise_res := PBool true;
     max_res_iso := PFloat 4 0;
     max_res_aniso := PFloat 8 0;
     data_res := PNone;
     thickness := PNone;
     bias_field_std := PFloat 7 (-1);
     bias_scale := PFloat 25 (-3);
     return_gradients := PBool false;
     n_levels := 5;
     nb_conv_per_level := PInt 2;
     conv_size := PInt 3;
     unet_feat_count := PInt 24;
     feat_multiplier := PInt 2;
     activation := PStr "elu";
     lr := PFloat 1 (-4);
     wl2_epochs := 1;
     dice_epochs := 50;
     steps_per_epoch := 10000;
     checkpoint := None |}.

(** The defaults with other epoch counts and another checkpoint. *)
Definition args_with (labels model : string) (wl2 dice : Z) (ckpt : option string)
  : training_args :=
  let d := default_args labels model in
  mk_training_args
    (labels_dir d) (model_dir d) (generation_labels d) (n_neutral_labels d)
    (segmentation_labels d) (subjects_prob d) (batchsize d) (n_channels d)
    (target_res d) (output_shape d) (generation_classes d)
    (prior_distributions d) (prior_means d) (prior_stds d)
    (use_specific_stats_for_channel d) (mix_prior_and_random d) (flipping d)
    (scaling_bounds d) (rotation_bounds d) (shearing_bounds d)
    (translation_bounds d) (nonlin_std d) (nonlin_scale d) (randomise_res d)
    (max_res_iso d) (max_res_aniso d) (data_res d) (thickness d)
    (bias_field_std d) (bias_scale d) (return_gradients d) (n_levels d)
    (nb_conv_per_level d) (conv_size d) (unet_feat_count d) (feat_multiplier d)
    (activation d) (lr d) wl2 dice (steps_per_epoch d) ckpt.

(** Arguments [a] with [l] as [segmentation_labels]. *)
Definition with_segmentation_labels (a : training_args) (l : pyval) : training_args :=
  mk_training_args
    (labels_dir a) (model_dir a) (generation_labels a) (n_neutral_labels a)
    l (subjects_prob a) (batchsize a) (n_channels a)
    (target_res a) (output_shape a) (generation_classes a)
    (prior_distributions a) (prior_means a) (prior_stds a)
    (use_specific_stats_for_channel a) (mix_prior_and_random a) (flipping a)
    (scaling_bounds a) (rotation_bounds a) (shearing_bounds a)
    (translation_bounds a) (nonlin_std a) (nonlin_scale a) (randomise_res a)
    (max_res_iso a) (max_res_aniso a) (data_res a) (thickness a)
    (bias_field_std a) (bias_scale a) (return_gradients a) (n_levels a)
    (nb_conv_per_level a) (conv_size a) (unet_feat_count a) (feat_multiplier a)
    (activation a) (lr a) (wl2_epochs a) (dice_epochs a) (steps_per_epoch a)
    (checkpoint a).

(** A label reader to run the driver on examples: the integer entries of an
    in-line list, and the labels 0, 2, 3, 4 for anything read from disk. *)
Definition sample_labels (l : pyval) (dir : option string) : list Z :=
  match l with
  | PSeq vs => flat_map (fun v => match v with PInt z => [z] | _ => [] end) vs
  | _ => [0; 2; 3; 4]
  end.

(** An event that may follow the setup in a run fed by generator [g]. *)
Definition later_event (g : generator) (ev : event) : Prop :=
  match ev with
  | EvModel _ _ | EvMetricsModel _ _ _ => True
  | _ => phase_event g ev
  end.

(** The argument [nb_labels] with which a network was built. *)
Definition nb_labels_of (m : model) : option nat :=
  match m with
  | Unet _ _ n _ _ _ _ _ _ _ _ => Some n
  | _ => None
  end.

(* ===================================================================== *)
(** * Facts about the string primitives *)

Section StringFacts.

Lemma app_empty_r (s : string) : s ++ "" = s.
Proof. induction s as [|c r IH]; simpl; [reflexivity | now rewrite IH]. Qed.

Lemma app_assoc_str (a b c : string) : (a ++ b) ++ c = a ++ (b ++ c).
Proof. induction a as [|x r IH]; simpl; [reflexivity | now rewrite IH]. Qed.

Lemma length_app_str (a b : string) :
  String.length (a ++ b) = (String.length a + String.length b)%nat.
Proof. induction a as [|x r IH]; simpl; [reflexivity | now rewrite IH]. Qed.

Lemma prefix_app (a b : string) : prefix a (a ++ b) = true.
Proof.
  induction a as [|x r IH]; simpl.
  - now destruct b.
  - destruct (ascii_dec x x) as [_|N]; [exact IH | now elim N].
Qed.

Lemma prefix_nil (s : string) : prefix "" s = true.
Proof. now destruct s. Qed.

Lemma all_chars_app (p : ascii -> bool) (a b : string) :
  all_chars p (a ++ b) = all_chars p a && all_chars p b.
Proof.
  induction a as [|x r IH]; simpl; [reflexivity|].
  now rewrite IH, andb_assoc.
Qed.

Lemma all_chars_weaken (p q : ascii -> bool) (s : string) :
  (forall c, p c = true -> q c = true) ->
  all_chars p s = true -> all_chars q s = true.
Proof.
  intros Hpq. induction s as [|x r IH]; simpl; [reflexivity|].
  intros H. apply andb_true_iff in H as [Hx Hr].
  now rewrite (Hpq _ Hx), (IH Hr).
Qed.

Lemma take_app_length (a b : string) : PyStr.take (String.length a) (a ++ b) = a.
Proof. induction a as [|x r IH]; simpl; [now destruct b | now rewrite IH]. Qed.

Lemma drop_app_length (a b : string) : PyStr.drop (String.length a) (a ++ b) = b.
Proof. induction a as [|x r IH]; simpl; [reflexivity | exact IH]. Qed.

(** Occurrences. *)

Lemma contains_prefix (m s : string) :
  prefix m s = true -> PyStr.contains m s = true.
Proof. intros H. destruct s; cbn [PyStr.contains]; now rewrite H. Qed.

Lemma contains_app (m a b : string) : PyStr.contains m (a ++ m ++ b) = true.
Proof.
  induction a as [|x r IH].
  - change ("" ++ m ++ b) with (m ++ b). apply contains_prefix, prefix_app.
  - change (String x r ++ m ++ b) with (String x (r ++ m ++ b)).
    cbn [PyStr.contains]. rewrite IH. apply orb_true_r.
Qed.

Lemma prefix_first_char (c : ascii) (m s : string) :
  all_chars (other_than c) s = true -> prefix (String c m) s = false.
Proof.
  destruct s as [|x r]; simpl; [reflexivity|].
  intros H. apply andb_true_iff in H as [Hx _].
  unfold other_than in Hx. apply negb_true_iff, Ascii.eqb_neq in Hx.
  destruct (ascii_dec c x) as [E|_]; [now elim Hx | reflexivity].
Qed.

Lemma contains_first_char (c : ascii) (m s : string) :
  all_chars (other_than c) s = true -> PyStr.contains (String c m) s = false.
Proof.
  induction s as [|x r IH]; intros H.
  - reflexivity.
  - cbn [PyStr.contains]. rewrite (prefix_first_char c m _ H).
    simpl in H. apply andb_true_iff in H as [_ Hr]. now rewrite (IH Hr).
Qed.

(** [split]. *)

Lemma split_scan_skip (sep x cur s : string) :
  PyStr.split_scan sep (String.length x) cur (x ++ s) = PyStr.split_scan sep 0 cur s.
Proof.
  induction x as [|c r IH]; simpl; [reflexivity | exact IH].
Qed.

Lemma split_scan_absent (sep cur s : string) :
  PyStr.contains sep s = false ->
  PyStr.split_scan sep 0 cur s = [cur ++ s].
Proof.
  revert cur. induction s as [|c r IH]; intros cur H.
  - simpl. now rewrite app_empty_r.
  - cbn [PyStr.contains] in H. apply orb_false_iff in H as [Hp Hr].
    cbn [PyStr.split_scan]. rewrite Hp, (IH _ Hr), app_assoc_str. reflexivity.
Qed.

Lemma split_once (c : ascii) (m rest : string) :
  PyStr.contains (String c m) rest = false ->
  PyStr.split (String c m ++ rest) (String c m) = Ok [""; rest].
Proof.
  intros H. unfold PyStr.split.
  change (String c m ++ rest) with (String c (m ++ rest)).
  cbn [PyStr.split_scan].
  change (String c (m ++ rest)) with (String c m ++ rest).
  rewrite prefix_app. cbn [String.length Nat.pred].
  rewrite split_scan_skip, (split_scan_absent _ _ _ H). reflexivity.
Qed.

(** Slicing off one leading and three trailing characters. *)

Lemma slice_1_m3 (c : ascii) (d t : string) :
  String.length t = 3%nat ->
  PyStr.slice (String c (d ++ t)) 1 (-3) = d.
Proof.
  intros Ht. unfold PyStr.slice, PyStr.clip_bound.
  cbn [String.length]. rewrite length_app_str, Ht.
  set (n := String.length d).
  replace (Z.of_nat (S (n + 3))) with (Z.of_nat n + 4) by lia.
  change (1 <? 0) with false. change (-3 <? 0) with true. cbv iota.
  replace (Z.min 1 (Z.of_nat n + 4)) with 1 by lia.
  replace (Z.max 0 (-3 + (Z.of_nat n + 4))) with (Z.of_nat n + 1) by lia.
  replace (Z.to_nat (Z.of_nat n + 1 - 1)) with n by lia.
  change (Z.to_nat 1) with 1%nat. cbn [PyStr.drop].
  apply take_app_length.
Qed.

End StringFacts.

(* ===================================================================== *)
(** * Facts about decimal printing and [int] *)

Section DecimalFacts.

Lemma digit_not_space (c : ascii) : PyStr.is_digit c = true -> not_space c = true.
Proof.
  unfold PyStr.is_digit, not_space, PyStr.is_space.
  set (n := nat_of_ascii c). intros H.
  apply andb_true_iff in H as [H1 H2].
  apply Nat.leb_le in H1, H2.
  apply negb_true_iff.
  repeat (apply orb_false_iff; split).
  - apply andb_false_iff. right. apply Nat.leb_gt. lia.
  - apply Nat.eqb_neq. lia.
  - apply Nat.eqb_neq. lia.
  - apply Nat.eqb_neq. lia.
Qed.

Lemma string_of_uint_digits (d : Decimal.uint) :
  all_chars PyStr.is_digit (NilEmpty.string_of_uint d) = true.
Proof. induction d; simpl; auto. Qed.

Lemma digits_all_digit (n : N) : all_chars PyStr.is_digit (PyStr.digits n) = true.
Proof. apply string_of_uint_digits. Qed.

Lemma zeros_all_digit (k : nat) : all_chars PyStr.is_digit (PyStr.zeros k) = true.
Proof. induction k; simpl; auto. Qed.

Lemma digits_nonempty (n : N) : PyStr.digits n <> "".
Proof.
  unfold PyStr.digits. destruct n as [|p]; simpl; [discriminate|].
  pose proof (DecimalPos.Unsigned.to_uint_nonnil p) as H.
  destruct (Pos.to_uint p); simpl; try discriminate. now elim H.
Qed.

(** Reading digits back, with a positive accumulator. *)
Lemma int_digits_acc (d : Decimal.uint) (acc : positive) :
  PyStr.int_digits (Zpos acc) true (NilEmpty.string_of_uint d)
  = Some (Zpos (Pos.of_uint_acc d acc)).
Proof.
  revert acc.
  induction d as [|d IH|d IH|d IH|d IH|d IH|d IH|d IH|d IH|d IH|d IH];
    intros acc; cbn [NilEmpty.string_of_uint PyStr.int_digits Pos.of_uint_acc];
    [reflexivity | ..];
    match goal with
    | |- context [PyStr.is_digit ?c] => change (PyStr.is_digit c) with true
    end; cbv iota; rewrite <- IH; f_equal;
    try match goal with
        | |- context [PyStr.digit_val ?c] =>
            let v := eval vm_compute in (PyStr.digit_val c) in
            change (PyStr.digit_val c) with v
        end; lia.
Qed.

Lemma int_digits_uint (d : Decimal.uint) :
  PyStr.int_digits 0 true (NilEmpty.string_of_uint d) = Some (Z.of_N (Pos.of_uint d)).
Proof.
  induction d as [|d IH|d IH|d IH|d IH|d IH|d IH|d IH|d IH|d IH|d IH];
    cbn [NilEmpty.string_of_uint PyStr.int_digits Pos.of_uint];
    [reflexivity | exact IH | ..];
    match goal with
    | |- context [PyStr.is_digit ?c] => change (PyStr.is_digit c) with true
    end; cbv iota; cbn [Z.of_N]; rewrite <- int_digits_acc; reflexivity.
Qed.

Lemma int_digits_first (b : bool) (s : string) :
  s <> "" -> all_chars PyStr.is_digit s = true ->
  PyStr.int_digits 0 b s = PyStr.int_digits 0 true s.
Proof.
  destruct s as [|c r]; [now intros H | intros _ H].
  simpl in H. apply andb_true_iff in H as [Hc _].
  cbn [PyStr.int_digits]. now rewrite Hc.
Qed.

Lemma int_digits_zeros (k : nat) (s : string) :
  PyStr.int_digits 0 true (PyStr.zeros k ++ s) = PyStr.int_digits 0 true s.
Proof. induction k as [|k IH]; [reflexivity | exact IH]. Qed.

Lemma int_digits_padded (k : nat) (n : N) :
  PyStr.int_digits 0 false (PyStr.zeros k ++ PyStr.digits n) = Some (Z.of_N n).
Proof.
  rewrite int_digits_first.
  - rewrite int_digits_zeros. unfold PyStr.digits.
    rewrite int_digits_uint. f_equal. f_equal.
    apply DecimalN.Unsigned.of_to.
  - pose proof (digits_nonempty n) as H.
    destruct k; simpl; [exact H | discriminate].
  - now rewrite all_chars_app, zeros_all_digit, digits_all_digit.
Qed.

(** [strip] leaves a string without blanks alone. *)
Lemma lstrip_no_space (s : string) : all_chars not_space s = true -> PyStr.lstrip s = s.
Proof.
  destruct s as [|c r]; [reflexivity|]. simpl. intros H.
  apply andb_true_iff in H as [Hc _]. unfold not_space in Hc.
  apply negb_true_iff in Hc. now rewrite Hc.
Qed.

Lemma rstrip_no_space (s : string) : all_chars not_space s = true -> PyStr.rstrip s = s.
Proof.
  induction s as [|c r IH]; [reflexivity|]. simpl. intros H.
  apply andb_true_iff in H as [Hc Hr]. rewrite (IH Hr).
  unfold not_space in Hc. apply negb_true_iff in Hc.
  destruct r; [now rewrite Hc | reflexivity].
Qed.

Lemma strip_digits (s : string) : all_chars PyStr.is_digit s = true -> PyStr.strip s = s.
Proof.
  intros H. pose proof (all_chars_weaken _ _ s digit_not_space H) as Hs.
  unfold PyStr.strip. now rewrite (lstrip_no_space _ Hs), (rstrip_no_space _ Hs).
Qed.

(** [int] reads back a padded decimal numeral. *)
Lemma int_padded (k : nat) (n : N) :
  PyStr.int (PyStr.zeros k ++ PyStr.digits n) = Ok (Z.of_N n).
Proof.
  assert (Hd : all_chars PyStr.is_digit (PyStr.zeros k ++ PyStr.digits n) = true)
    by now rewrite all_chars_app, zeros_all_digit, digits_all_digit.
  unfold PyStr.int. rewrite (strip_digits _ Hd).
  pose proof (int_digits_padded k n) as Hp.
  destruct (PyStr.zeros k ++ PyStr.digits n) as [|c r] eqn:E.
  - simpl in Hp. discriminate Hp.
  - simpl in Hd. apply andb_true_iff in Hd as [Hc _].
    assert (Hm : Ascii.eqb c "-" = false) by (destruct (Ascii.eqb_spec c "-"); [subst; discriminate Hc | reflexivity]).
    assert (Hq : Ascii.eqb c "+" = false) by (destruct (Ascii.eqb_spec c "+"); [subst; discriminate Hc | reflexivity]).
    assert (Hbody : (match String c r with
                     | String "-" r0 => (true, r0)
                     | String "+" r0 => (false, r0)
                     | _ => (false, String c r)
                     end) = (false, String c r)).
    { apply Ascii.eqb_neq in Hm, Hq.
      destruct c as [[] [] [] [] [] [] [] []]; try reflexivity;
        [now elim Hm | now elim Hq]. }
    rewrite Hbody, Hp. reflexivity.
Qed.

Lemma fmt_03d_nonneg (e : Z) :
  0 <= e ->
  PyStr.fmt_03d e
  = PyStr.zeros (3 - String.length (PyStr.digits (Z.to_N e))) ++ PyStr.digits (Z.to_N e).
Proof.
  intros He. unfold PyStr.fmt_03d.
  replace (e <? 0) with false by (symmetry; apply Z.ltb_ge; exact He).
  rewrite Z.abs_eq by exact He. cbn [append String.length]. now rewrite Nat.sub_0_r.
Qed.

Lemma fmt_03d_digits (e : Z) :
  0 <= e -> all_chars PyStr.is_digit (PyStr.fmt_03d e) = true.
Proof.
  intros He. rewrite (fmt_03d_nonneg e He).
  now rewrite all_chars_app, zeros_all_digit, digits_all_digit.
Qed.

Lemma int_fmt_03d (e : Z) : 0 <= e -> PyStr.int (PyStr.fmt_03d e) = Ok e.
Proof.
  intros He. rewrite (fmt_03d_nonneg e He), int_padded.
  now rewrite Z2N.id.
Qed.

End DecimalFacts.

(* ===================================================================== *)
(** * Facts about paths *)

Section PathFacts.

Lemma rfind_app_absent (c : ascii) (a b : string) :
  all_chars (other_than c) b = true ->
  PosixPath.rfind c (a ++ b) = PosixPath.rfind c a.
Proof.
  intros Hb. induction a as [|x r IH].
  - simpl. induction b as [|y t IHb]; [reflexivity|].
    simpl in Hb. apply andb_true_iff in Hb as [Hy Ht].
    cbn [PosixPath.rfind]. rewrite (IHb Ht). simpl.
    unfold other_than in Hy. apply negb_true_iff in Hy. now rewrite Hy.
  - change (String x r ++ b) with (String x (r ++ b)).
    cbn [PosixPath.rfind]. now rewrite IH.
Qed.

Lemma rfind_ends_with_slash (d : string) :
  PosixPath.ends_with_slash d = true ->
  PosixPath.rfind "/" d = Z.of_nat (String.length d) - 1.
Proof.
  induction d as [|c r IH]; [discriminate|].
  destruct r as [|c' r'].
  - simpl. intros H. now rewrite H.
  - intros H. change (PosixPath.ends_with_slash (String c' r') = true) in H.
    specialize (IH H). cbn [PosixPath.rfind] in *. rewrite IH.
    cbn [String.length]. 
    replace (0 <=? Z.of_nat (S (String.length r')) - 1) with true
      by (symmetry; apply Z.leb_le; lia).
    lia.
Qed.

Lemma ends_with_slash_snoc (d : string) : PosixPath.ends_with_slash (d ++ "/") = true.
Proof.
  induction d as [|c r IH]; [reflexivity|].
  change (String c r ++ "/") with (String c (r ++ "/")).
  cbn [PosixPath.ends_with_slash]. destruct (r ++ "/") eqn:E; [|exact IH].
  destruct r; discriminate E.
Qed.

Lemma dir_prefix_ends (d : string) :
  d <> "" -> PosixPath.ends_with_slash (dir_prefix d) = true.
Proof.
  intros Hd. unfold dir_prefix. destruct d as [|c r]; [now elim Hd|].
  destruct (PosixPath.ends_with_slash (String c r)) eqn:E; [exact E|].
  apply ends_with_slash_snoc.
Qed.

Lemma join_relative (d f : string) :
  prefix "/" f = false -> PosixPath.join d f = dir_prefix d ++ f.
Proof.
  intros H. unfold PosixPath.join, dir_prefix. rewrite H.
  destruct d as [|c r]; [reflexivity|].
  destruct (PosixPath.ends_with_slash (String c r)); [reflexivity|].
  now rewrite app_assoc_str.
Qed.

Lemma basename_plain (f : string) :
  all_chars (other_than "/") f = true -> PosixPath.basename f = f.
Proof.
  intros H. unfold PosixPath.basename.
  pose proof (rfind_app_absent "/" "" f H) as E. cbn [append] in E.
  rewrite E. reflexivity.
Qed.

Lemma basename_dir_prefix (d f : string) :
  all_chars (other_than "/") f = true ->
  PosixPath.basename (dir_prefix d ++ f) = f.
Proof.
  intros H. destruct d as [|c r].
  - apply basename_plain, H.
  - assert (Hne : String c r <> "") by discriminate.
    pose proof (dir_prefix_ends _ Hne) as He.
    unfold PosixPath.basename.
    rewrite (rfind_app_absent _ _ _ H), (rfind_ends_with_slash _ He).
    replace (Z.to_nat (Z.of_nat (String.length (dir_prefix (String c r))) - 1 + 1))
      with (String.length (dir_prefix (String c r))) by lia.
    apply drop_app_length.
Qed.

Lemma basename_join (d f : string) :
  prefix "/" f = false ->
  all_chars (other_than "/") f = true ->
  PosixPath.basename (PosixPath.join d f) = f.
Proof.
  intros Hp Hf. rewrite (join_relative _ _ Hp). now apply basename_dir_prefix.
Qed.

End PathFacts.

(* ===================================================================== *)
(** * The resume logic of [train_model] *)

Section ResumeFacts.

Lemma digit_other_than (c a : ascii) :
  PyStr.is_digit c = false -> PyStr.is_digit a = true -> other_than c a = true.
Proof.
  intros Hc Ha. unfold other_than. apply negb_true_iff, Ascii.eqb_neq.
  intros ->. congruence.
Qed.

Lemma snapshot_tail_absent (c : ascii) (e : Z) :
  tag_head_ok c = true -> 0 <= e ->
  all_chars (other_than c) ("_" ++ PyStr.fmt_03d e ++ ".h5") = true.
Proof.
  unfold tag_head_ok. intros H He.
  repeat (apply andb_true_iff in H as [H ?]).
  apply negb_true_iff in H.
  assert (Hsym : forall x, other_than x c = true -> other_than c x = true).
  { intros x Hx. unfold other_than in *. now rewrite Ascii.eqb_sym. }
  change ("_" ++ PyStr.fmt_03d e ++ ".h5") with (String "_" (PyStr.fmt_03d e ++ ".h5")).
  cbn [all_chars]. rewrite all_chars_app.
  rewrite (all_chars_weaken _ _ _ (fun a => digit_other_than c a H) (fmt_03d_digits e He)).
  cbn [all_chars]. rewrite !Hsym by assumption.
  rewrite (digit_other_than c "5" H eq_refl). reflexivity.
Qed.

Lemma parse_epoch_snapshot (c : ascii) (m d : string) (e : Z) :
  tag_head_ok c = true ->
  all_chars (other_than "/") (String c m) = true ->
  0 <= e ->
  parse_epoch (String c m) (PosixPath.join d (snapshot_name (String c m) e)) = Ok e.
Proof.
  intros Hc Hm He. unfold parse_epoch, snapshot_name.
  assert (Hslash : all_chars (other_than "/")
                     (String c m ++ "_" ++ PyStr.fmt_03d e ++ ".h5") = true).
  { rewrite all_chars_app, Hm.
    change ("_" ++ PyStr.fmt_03d e ++ ".h5") with (String "_" (PyStr.fmt_03d e ++ ".h5")).
    cbn [all_chars andb]. rewrite all_chars_app.
    rewrite (all_chars_weaken _ _ _ (fun a => digit_other_than "/" a eq_refl)
               (fmt_03d_digits e He)).
    reflexivity. }
  assert (Hrel : prefix "/" (String c m ++ "_" ++ PyStr.fmt_03d e ++ ".h5") = false).
  { simpl in Hm. apply andb_true_iff in Hm as [Hx _].
    unfold other_than in Hx. apply negb_true_iff, Ascii.eqb_neq in Hx.
    change (String c m ++ "_" ++ PyStr.fmt_03d e ++ ".h5")
      with (String c (m ++ "_" ++ PyStr.fmt_03d e ++ ".h5")).
    cbn [prefix]. destruct (ascii_dec "/" c) as [E|_]; [now elim Hx | reflexivity]. }
  rewrite (basename_join _ _ Hrel Hslash).
  rewrite split_once
    by (apply contains_first_char, snapshot_tail_absent; assumption).
  cbn [result_bind PyStr.index nth_error].
  change ("_" ++ PyStr.fmt_03d e ++ ".h5") with (String "_" (PyStr.fmt_03d e ++ ".h5")).
  rewrite slice_1_m3 by reflexivity.
  apply int_fmt_03d, He.
Qed.

Lemma contains_join_snapshot (tag d : string) (e : Z) :
  prefix "/" (snapshot_name tag e) = false ->
  PyStr.contains tag (PosixPath.join d (snapshot_name tag e)) = true.
Proof.
  intros H. rewrite (join_relative _ _ H). unfold snapshot_name. apply contains_app.
Qed.

Lemma parse_epoch_absent (tag p : string) :
  tag <> "" ->
  PyStr.contains tag (PosixPath.basename p) = false ->
  parse_epoch tag p = Raise IndexError.
Proof.
  intros Ht H. unfold parse_epoch, PyStr.split.
  destruct tag as [|c m]; [now elim Ht|].
  now rewrite (split_scan_absent _ _ _ H).
Qed.

(** [train_model], flattened into the trace it leaves. *)
Lemma train_model_trace (m : model) (g : generator) (learning_rate : pyval)
    (n_epochs n_steps : Z) (model_dir metric_type : string)
    (path_checkpoint : option string) (reinitialise_momentum : bool) :
  train_model m g learning_rate n_epochs n_steps model_dir metric_type
              path_checkpoint reinitialise_momentum
  = match init_epoch_of metric_type path_checkpoint with
    | Raise x => (phase_setup model_dir, Raise x)
    | Ok e =>
        let cbs := callbacks_of model_dir metric_type in
        ((phase_setup model_dir ++
          match path_checkpoint with
          | None =>
              [EvCompile m (Adam learning_rate) IdentityLoss;
               EvFitGenerator m g n_epochs n_steps cbs e]
          | Some p =>
              if reloads metric_type path_checkpoint reinitialise_momentum
              then [EvLoadModel p;
                    EvFitGenerator (LoadedModel p) g n_epochs n_steps cbs e]
              else [EvLoadWeights m p true;
                    EvCompile m (Adam learning_rate) IdentityLoss;
                    EvFitGenerator m g n_epochs n_steps cbs e]
          end)%list, Ok tt)
    end.
Proof.
  unfold train_model, restore, init_epoch_of, reloads.
  destruct path_checkpoint as [p|]; [|reflexivity].
  destruct (PyStr.contains metric_type p);
    [destruct (parse_epoch metric_type p) |];
    destruct reinitialise_momentum; reflexivity.
Qed.

End ResumeFacts.

(* ===================================================================== *)
(** * Rendering the snapshot template *)

Section FormatFacts.

Lemma format_scan_skip (e : Z) (x s : string) :
  PyStr.format_scan e (String.length x) (x ++ s) = PyStr.format_scan e 0 s.
Proof. induction x as [|c r IH]; [reflexivity | exact IH]. Qed.

Lemma format_scan_literal (e : Z) (x s : string) :
  brace_free x = true ->
  PyStr.format_scan e 0 (x ++ s)
  = option_map (append x) (PyStr.format_scan e 0 s).
Proof.
  unfold brace_free. induction x as [|c r IH]; intros H.
  - cbn [append]. now destruct (PyStr.format_scan e 0 s).
  - cbn [all_chars] in H. apply andb_true_iff in H as [Hc Hr].
    unfold not_brace in Hc. apply negb_true_iff in Hc.
    pose proof Hc as Hc'. apply orb_false_iff in Hc' as [Ho Hcl].
    apply Ascii.eqb_neq in Ho, Hcl.
    change (String c r ++ s) with (String c (r ++ s)).
    cbn [PyStr.format_scan prefix].
    destruct (ascii_dec "{" c) as [E|_]; [now elim Ho|].
    destruct (ascii_dec "}" c) as [E|_]; [now elim Hcl|].
    rewrite Hc, (IH Hr). now destruct (PyStr.format_scan e 0 s).
Qed.

Lemma format_scan_field (e : Z) (s : string) :
  PyStr.format_scan e 0 ("{epoch:03d}" ++ s)
  = option_map (append (PyStr.fmt_03d e)) (PyStr.format_scan e 0 s).
Proof.
  change ("{epoch:03d}" ++ s) with (String "{" ("epoch:03d}" ++ s)).
  cbn [PyStr.format_scan].
  change (String "{" ("epoch:03d}" ++ s)) with ("{epoch:03d}" ++ s).
  rewrite prefix_app.
  change 10%nat with (String.length "epoch:03d}").
  now rewrite format_scan_skip.
Qed.

Lemma format_epoch_template (x y : string) (e : Z) :
  brace_free x = true -> brace_free y = true ->
  PyStr.format_epoch (x ++ "{epoch:03d}" ++ y) e = Some (x ++ PyStr.fmt_03d e ++ y).
Proof.
  intros Hx Hy. unfold PyStr.format_epoch.
  rewrite (format_scan_literal _ _ _ Hx), format_scan_field.
  rewrite <- (app_empty_r y) at 1.
  rewrite (format_scan_literal _ _ _ Hy). cbn [PyStr.format_scan option_map].
  now rewrite app_empty_r.
Qed.

Lemma brace_free_app (a b : string) :
  brace_free (a ++ b) = brace_free a && brace_free b.
Proof. apply all_chars_app. Qed.

End FormatFacts.

(* ===================================================================== *)
(** * The shape of a run of [training] *)

Section TrainingFacts.

Variable get_list_labels : pyval -> option string -> list Z.

Local Abbreviation training' := (training get_list_labels).

Lemma training_rejected (a : training_args) :
  epochs_ok a = false ->
  training' a
  = ([], Raise (AssertionError (epochs_message (wl2_epochs a) (dice_epochs a)))).
Proof.
  unfold epochs_ok, training. intros H. now rewrite H.
Qed.

(** With a wl2 phase: the setup, the wl2 phase, and the dice phase fed with
    the wl2 snapshot if the wl2 phase returned. *)
Lemma training_with_wl2 (a : training_args) :
  0 < wl2_epochs a ->
  training' a
  = match wl2_phase get_list_labels a with
    | (t1, Raise x) =>
        ((setup_events get_list_labels a ++ wl2_models get_list_labels a ++ t1)%list,
         Raise x)
    | (t1, Ok _) =>
        let '(t2, r) := dice_phase get_list_labels a (Some (wl2_snapshot a)) in
        ((setup_events get_list_labels a ++ wl2_models get_list_labels a ++ t1
          ++ dice_models get_list_labels a ++ t2)%list, r)
    end.
Proof.
  intros H. apply Z.gtb_lt in H. unfold training. rewrite H. cbn [orb].
  unfold wl2_phase, dice_phase, wl2_model_of, dice_model_of, input_generator_of,
    wl2_snapshot, setup_events, wl2_models, dice_models.
  destruct (train_model _ _ _ _ _ _ "wl2" _ _) as [t1 [[]|x]];
    cbn [bind ret emit lift app]; [|reflexivity].
  destruct (train_model _ _ _ _ _ _ "dice" _ _) as [t2 r].
  now rewrite app_nil_r.
Qed.

(** Without a wl2 phase: the setup and the dice phase on the given
    checkpoint. *)
Lemma training_dice_only (a : training_args) :
  wl2_epochs a <= 0 -> 0 < dice_epochs a ->
  training' a
  = let '(t2, r) := dice_phase get_list_labels a (checkpoint a) in
    ((setup_events get_list_labels a ++ dice_models get_list_labels a ++ t2)%list, r).
Proof.
  intros Hw Hd. apply Z.gtb_lt in Hd.
  assert (Hw' : (wl2_epochs a >? 0) = false) by (rewrite Z.gtb_ltb; apply Z.ltb_ge; lia).
  unfold training. rewrite Hw', Hd. cbn [orb].
  unfold dice_phase, dice_model_of, input_generator_of, setup_events, dice_models.
  cbn [bind ret emit lift app].
  destruct (train_model _ _ _ _ _ _ "dice" _ _) as [t2 r].
  reflexivity.
Qed.

End TrainingFacts.

(* ===================================================================== *)
(** * What a training phase can leave in the trace *)

Section PhaseFacts.

Lemma parse_epoch_exn (tag p : string) (x : exn) :
  parse_epoch tag p = Raise x -> x = IndexError \/ x = ValueError.
Proof.
  unfold parse_epoch, PyStr.split, PyStr.index, PyStr.int.
  destruct tag as [|c t]; cbn [result_bind]; [intros [= <-]; now right|].
  destruct (nth_error _ 1) as [piece|]; cbn [result_bind]; [|intros [= <-]; now left].
  destruct (match PyStr.strip (PyStr.slice piece 1 (-3)) with
            | String "-" r => (true, r)
            | String "+" r => (false, r)
            | _ => (false, PyStr.strip (PyStr.slice piece 1 (-3)))
            end) as [neg body].
  destruct (PyStr.int_digits 0 false body); [discriminate | intros [= <-]; now right].
Qed.

Lemma init_epoch_exn (tag : string) (ckpt : option string) (x : exn) :
  init_epoch_of tag ckpt = Raise x -> x = IndexError \/ x = ValueError.
Proof.
  unfold init_epoch_of. destruct ckpt as [p|]; [|discriminate].
  destruct (PyStr.contains tag p); [apply parse_epoch_exn | discriminate].
Qed.

Lemma train_model_result (m : model) (g : generator) (learning_rate : pyval)
    (n_epochs n_steps : Z) (model_dir tag : string) (ckpt : option string)
    (reinit : bool) :
  forall msg,
    snd (train_model m g learning_rate n_epochs n_steps model_dir tag ckpt reinit)
    <> Raise (AssertionError msg).
Proof.
  intros msg. rewrite train_model_trace.
  destruct (init_epoch_of tag ckpt) as [e|x] eqn:E; cbn [snd]; [discriminate|].
  destruct (init_epoch_exn _ _ _ E) as [-> | ->]; discriminate.
Qed.

Lemma train_model_events (m : model) (g : generator) (learning_rate : pyval)
    (n_epochs n_steps : Z) (model_dir tag : string) (ckpt : option string)
    (reinit : bool) :
  Forall (phase_event g)
    (fst (train_model m g learning_rate n_epochs n_steps model_dir tag ckpt reinit)).
Proof.
  rewrite train_model_trace.
  destruct (init_epoch_of tag ckpt) as [e|x]; cbn [fst].
  - destruct ckpt as [p|]; [destruct (reloads tag (Some p) reinit)|];
      repeat constructor.
  - repeat constructor.
Qed.

End PhaseFacts.

(* ===================================================================== *)
(** * The epochs check *)

(** C1.  When neither [wl2_epochs] nor [dice_epochs] is positive, [training]
    stops on the assertion with an empty trace: the [BrainGenerator] has not
    been built, nothing was sampled, no phase was started.  When one of them
    is positive the assertion passes: the run goes on to build the
    [BrainGenerator] and never ends on an [AssertionError]. *)
Theorem epochs_assertion (get_list_labels : pyval -> option string -> list Z)
    (a : training_args) :
  (wl2_epochs a <= 0 -> dice_epochs a <= 0 ->
   training get_list_labels a
   = ([], Raise (AssertionError (epochs_message (wl2_epochs a) (dice_epochs a)))))
  /\
  (0 < wl2_epochs a \/ 0 < dice_epochs a ->
   (exists rest r,
      training get_list_labels a
      = (EvBrainGenerator (brain_generator_of get_list_labels a) :: rest, r))
   /\ forall msg, snd (training get_list_labels a) <> Raise (AssertionError msg)).
Proof.
  split.
  - intros Hw Hd. apply training_rejected. unfold epochs_ok.
    apply orb_false_iff. split; rewrite Z.gtb_ltb; apply Z.ltb_ge; lia.
  - intros H.
    destruct (Z_lt_le_dec 0 (wl2_epochs a)) as [Hw|Hw].
    + rewrite (training_with_wl2 _ _ Hw).
      pose proof (train_model_result (wl2_model_of get_list_labels a)
                    (input_generator_of get_list_labels a) (lr a) (wl2_epochs a)
                    (steps_per_epoch a) (model_dir a) "wl2" (checkpoint a) false) as R1.
      fold (wl2_phase get_list_labels a) in R1.
      destruct (wl2_phase get_list_labels a) as [t1 [[]|x]].
      * pose proof (train_model_result (dice_model_of get_list_labels a)
                      (input_generator_of get_list_labels a) (lr a) (dice_epochs a)
                      (steps_per_epoch a) (model_dir a) "dice"
                      (Some (wl2_snapshot a)) false) as R2.
        fold (dice_phase get_list_labels a (Some (wl2_snapshot a))) in R2.
        destruct (dice_phase get_list_labels a (Some (wl2_snapshot a))) as [t2 r].
        split; [eexists; eexists; reflexivity | exact R2].
      * split; [eexists; eexists; reflexivity | exact R1].
    + assert (Hd : 0 < dice_epochs a) by (destruct H; [lia | assumption]).
      rewrite (training_dice_only _ _ Hw Hd).
      pose proof (train_model_result (dice_model_of get_list_labels a)
                    (input_generator_of get_list_labels a) (lr a) (dice_epochs a)
                    (steps_per_epoch a) (model_dir a) "dice" (checkpoint a) false) as R2.
      fold (dice_phase get_list_labels a (checkpoint a)) in R2.
      destruct (dice_phase get_list_labels a (checkpoint a)) as [t2 r].
      split; [eexists; eexists; reflexivity | exact R2].
Qed.

Lemma epochs_assertion_witness :
  training sample_labels (args_with "labels" "models" 0 (-2) None)
  = ([], Raise (AssertionError
                  "either wl2_epochs or dice_epochs must be positive, had 0 and -2"))
  /\ forall msg,
       snd (training sample_labels (args_with "labels" "models" 0 3 None))
       <> Raise (AssertionError msg).
Proof.
  split.
  - apply (proj1 (epochs_assertion sample_labels
                    (args_with "labels" "models" 0 (-2) None))); simpl; lia.
  - apply (proj2 (epochs_assertion sample_labels
                    (args_with "labels" "models" 0 3 None))).
    right. simpl. lia.
Defined.

(* ===================================================================== *)
(** * Snapshot names and resuming *)


Lemma tag_cases (tag : string) :
  tag = "wl2" \/ tag = "dice" ->
  exists c m, tag = String c m /\ tag_head_ok c = true
              /\ all_chars (other_than "/") tag = true
              /\ brace_free tag = true.
Proof.
  intros [-> | ->]; eexists; eexists; repeat split; reflexivity.
Qed.

Lemma snapshot_relative (tag : string) (s : string) :
  tag = "wl2" \/ tag = "dice" -> prefix "/" (tag ++ s) = false.
Proof. intros [-> | ->]; reflexivity. Qed.



Lemma save_file_name_relative (model_dir tag : string) :
  tag = "wl2" \/ tag = "dice" ->
  save_file_name model_dir tag = dir_prefix model_dir ++ tag ++ "_{epoch:03d}.h5".
Proof.
  intros Htag. unfold save_file_name.
  apply join_relative, snapshot_relative, Htag.
Qed.

Lemma train_model_fits (m : model) (g : generator) (learning_rate : pyval)
    (n_epochs n_steps : Z) (model_dir tag : string) (ckpt : option string)
    (reinit : bool) (ev : event) :
  In ev (fst (train_model m g learning_rate n_epochs n_steps model_dir tag ckpt reinit)) ->
  is_fit ev = true ->
  exists m' i,
    ev = EvFitGenerator m' g n_epochs n_steps (callbacks_of model_dir tag) i.
Proof.
  rewrite train_model_trace.
  destruct (init_epoch_of tag ckpt) as [e|x]; cbn [fst].
  - destruct ckpt as [p|]; [destruct (reloads tag (Some p) reinit)|];
      cbn [phase_setup app In]; intros H Hf;
      repeat (destruct H as [<- | H]; [try discriminate Hf; eauto|]);
      now elim H.
  - cbn [phase_setup In]. intros H Hf.
    repeat (destruct H as [<- | H]; [discriminate Hf|]). now elim H.
Qed.


(* ===================================================================== *)
(** * Restoring from a checkpoint *)

(** C4, as the code has it.  The four ways [train_model] starts.  Without a checkpoint the model
    is compiled with Adam at the given learning rate and fitted from epoch
    0.  With a checkpoint whose path holds the tag and whose name yields the
    epoch [e]: if [reinitialise_momentum] is false the full model is
    reloaded and fitted from [e] without being compiled; if it is true the
    weights are loaded by name, the model is compiled and fitted from [e].
    With a checkpoint whose path does not hold the tag, the weights are
    loaded by name and the model is compiled and fitted from epoch 0. *)
Theorem restore_cases (m : model) (g : generator) (learning_rate : pyval)
    (n_epochs n_steps : Z) (model_dir tag : string) :
  let cbs := callbacks_of model_dir tag in
  let compile := EvCompile m (Adam learning_rate) IdentityLoss in
  (forall reinit,
     train_model m g learning_rate n_epochs n_steps model_dir tag None reinit
     = ((phase_setup model_dir
         ++ [compile; EvFitGenerator m g n_epochs n_steps cbs 0])%list, Ok tt))
  /\ (forall p e,
        PyStr.contains tag p = true -> parse_epoch tag p = Ok e ->
        train_model m g learning_rate n_epochs n_steps model_dir tag (Some p) false
        = ((phase_setup model_dir
            ++ [EvLoadModel p;
                EvFitGenerator (LoadedModel p) g n_epochs n_steps cbs e])%list, Ok tt))
  /\ (forall p e,
        PyStr.contains tag p = true -> parse_epoch tag p = Ok e ->
        train_model m g learning_rate n_epochs n_steps model_dir tag (Some p) true
        = ((phase_setup model_dir
            ++ [EvLoadWeights m p true; compile;
                EvFitGenerator m g n_epochs n_steps cbs e])%list, Ok tt))
  /\ (forall p reinit,
        PyStr.contains tag p = false ->
        train_model m g learning_rate n_epochs n_steps model_dir tag (Some p) reinit
        = ((phase_setup model_dir
            ++ [EvLoadWeights m p true; compile;
                EvFitGenerator m g n_epochs n_steps cbs 0])%list, Ok tt)).
Proof.
  intros cbs compile. split; [|split; [|split]].
  - intros reinit. now rewrite train_model_trace.
  - intros p e Hc Hp. rewrite train_model_trace.
    unfold init_epoch_of, reloads. now rewrite Hc, Hp.
  - intros p e Hc Hp. rewrite train_model_trace.
    unfold init_epoch_of, reloads. now rewrite Hc, Hp.
  - intros p reinit Hc. rewrite train_model_trace.
    unfold init_epoch_of, reloads. rewrite Hc.
    now destruct reinit.
Qed.

Lemma restore_cases_witness :
  train_model (LoadedModel "start.h5") (ModelInputsGenerator
     (brain_generator_of sample_labels (default_args "labels" "models")))
     (PFloat 1 (-4)) 50 10000 "models" "dice" (Some "models/dice_012.h5") false
  = ([EvMkdir "models"; EvMkdir "models/logs"; EvLoadModel "models/dice_012.h5";
      EvFitGenerator (LoadedModel "models/dice_012.h5")
        (ModelInputsGenerator
           (brain_generator_of sample_labels (default_args "labels" "models")))
        50 10000
        [ModelCheckpoint "models/dice_{epoch:03d}.h5" 1;
         TensorBoard "models/logs" 0 true false] 12], Ok tt).
Proof.
  apply (proj1 (proj2 (restore_cases (LoadedModel "start.h5") (ModelInputsGenerator
     (brain_generator_of sample_labels (default_args "labels" "models")))
     (PFloat 1 (-4)) 50 10000 "models" "dice")) "models/dice_012.h5" 12);
    reflexivity.
Defined.

(** Where C4 fails as it is written: the tag occurs in the path and
    [reinitialise_momentum] is false, but the file name carries no epoch.
    The call raises [ValueError] on [int('final')]: [load_model] is not
    called and nothing is fitted. *)
Lemma restore_cases_counterexample :
  PyStr.contains "dice" "runs/dice_final.h5" = true
  /\ train_model (LoadedModel "start.h5")
       (ModelInputsGenerator
          (brain_generator_of sample_labels (default_args "labels" "models")))
       (PFloat 1 (-4)) 50 10000 "models" "dice" (Some "runs/dice_final.h5") false
     = ([EvMkdir "models"; EvMkdir "models/logs"], Raise ValueError)
  /\ ~ In (EvLoadModel "runs/dice_final.h5")
         (fst (train_model (LoadedModel "start.h5")
                 (ModelInputsGenerator
                    (brain_generator_of sample_labels (default_args "labels" "models")))
                 (PFloat 1 (-4)) 50 10000 "models" "dice"
                 (Some "runs/dice_final.h5") false)).
Proof.
  split; [reflexivity | split; [reflexivity|]].
  intros [H | [H | []]]; discriminate H.
Qed.

(** C6, as the code has it.  Whenever the initial epoch is computed, [train_model] ends by
    compiling the model with the Adam optimizer and the identity loss,
    unless the full model was reloaded, and then fitting it on the generator
    with the given number of epochs and of steps per epoch, the callback
    list headed by the model-saving callback, and the computed initial
    epoch.  Nothing before that compiles or fits. *)
Theorem trainer_interface (m : model) (g : generator) (learning_rate : pyval)
    (n_epochs n_steps : Z) (model_dir tag : string) (ckpt : option string)
    (reinit : bool) (e : Z) :
  init_epoch_of tag ckpt = Ok e ->
  let m' := model_after_restore m tag ckpt reinit in
  exists pre,
    train_model m g learning_rate n_epochs n_steps model_dir tag ckpt reinit
    = ((pre
        ++ (if reloads tag ckpt reinit then []
            else [EvCompile m' (Adam learning_rate) IdentityLoss])
        ++ [EvFitGenerator m' g n_epochs n_steps (callbacks_of model_dir tag) e])%list,
       Ok tt)
    /\ Forall (fun ev => is_compile ev = false /\ is_fit ev = false) pre
    /\ exists more,
         callbacks_of model_dir tag
         = ModelCheckpoint (save_file_name model_dir tag) 1 :: more.
Proof.
  intros He m'. subst m'. rewrite train_model_trace, He.
  assert (Hcb : exists more, callbacks_of model_dir tag
                  = ModelCheckpoint (save_file_name model_dir tag) 1 :: more).
  { unfold callbacks_of. destruct (String.eqb tag "dice"); eexists; reflexivity. }
  unfold model_after_restore.
  destruct ckpt as [p|].
  - destruct (reloads tag (Some p) reinit).
    + exists (phase_setup model_dir ++ [EvLoadModel p])%list.
      repeat split; [| exact Hcb]. repeat constructor.
    + exists (phase_setup model_dir ++ [EvLoadWeights m p true])%list.
      repeat split; [| exact Hcb]. repeat constructor.
  - exists (phase_setup model_dir).
    repeat split; [| exact Hcb]. repeat constructor.
Qed.

Lemma trainer_interface_witness :
  exists pre,
    train_model (LoadedModel "start.h5") (ModelInputsGenerator
       (brain_generator_of sample_labels (default_args "labels" "models")))
       (PFloat 1 (-4)) 50 10000 "models" "dice" (Some "models/wl2_001.h5") false
    = ((pre
        ++ [EvCompile (LoadedModel "start.h5") (Adam (PFloat 1 (-4))) IdentityLoss]
        ++ [EvFitGenerator (LoadedModel "start.h5") (ModelInputsGenerator
              (brain_generator_of sample_labels (default_args "labels" "models")))
              50 10000 (callbacks_of "models" "dice") 0])%list, Ok tt).
Proof.
  destruct (trainer_interface (LoadedModel "start.h5") (ModelInputsGenerator
       (brain_generator_of sample_labels (default_args "labels" "models")))
       (PFloat 1 (-4)) 50 10000 "models" "dice" (Some "models/wl2_001.h5") false 0
       eq_refl) as [pre [H _]].
  exists pre. exact H.
Defined.

(** Where C6 fails as it is written: a call whose checkpoint name holds the
    tag without an epoch raises [ValueError] before the model is compiled
    or fitted. *)
Lemma trainer_interface_counterexample :
  train_model (LoadedModel "start.h5")
    (ModelInputsGenerator
       (brain_generator_of sample_labels (default_args "labels" "models")))
    (PFloat 1 (-4)) 5 10000 "models" "wl2" (Some "runs/wl2_best.h5") true
  = ([EvMkdir "models"; EvMkdir "models/logs"], Raise ValueError)
  /\ filter is_compile
       (fst (train_model (LoadedModel "start.h5")
               (ModelInputsGenerator
                  (brain_generator_of sample_labels (default_args "labels" "models")))
               (PFloat 1 (-4)) 5 10000 "models" "wl2" (Some "runs/wl2_best.h5") true))
     = []
  /\ filter is_fit
       (fst (train_model (LoadedModel "start.h5")
               (ModelInputsGenerator
                  (brain_generator_of sample_labels (default_args "labels" "models")))
               (PFloat 1 (-4)) 5 10000 "models" "wl2" (Some "runs/wl2_best.h5") true))
     = [].
Proof.
  split; [reflexivity | split; reflexivity].
Qed.

(* ===================================================================== *)
(** * Where the resume logic raises *)

(** C8.  The tag is looked for in the whole checkpoint path, the epoch is
    read from the base name only.  For every checkpoint whose path holds the
    tag while its base name does not, [train_model] raises [IndexError]
    after creating the two directories: nothing is loaded, compiled or
    fitted, and there is no fall-back to epoch 0.  A base name that holds
    the tag without the digits raises [ValueError] in the same way. *)
Theorem resume_raises (m : model) (g : generator) (learning_rate : pyval)
    (n_epochs n_steps : Z) (model_dir : string) (reinit : bool) :
  (forall tag p,
     tag <> "" ->
     PyStr.contains tag p = true ->
     PyStr.contains tag (PosixPath.basename p) = false ->
     init_epoch_of tag (Some p) = Raise IndexError
     /\ train_model m g learning_rate n_epochs n_steps model_dir tag (Some p) reinit
        = (phase_setup model_dir, Raise IndexError))
  /\ train_model m g learning_rate n_epochs n_steps model_dir "dice"
                 (Some "dice_models/dice_final.h5") reinit
     = (phase_setup model_dir, Raise ValueError).
Proof.
  split.
  - intros tag p Ht Hc Hb.
    assert (E : init_epoch_of tag (Some p) = Raise IndexError).
    { unfold init_epoch_of. rewrite Hc. now apply parse_epoch_absent. }
    split; [exact E|]. now rewrite train_model_trace, E.
  - now rewrite train_model_trace.
Qed.

Lemma resume_raises_witness :
  train_model (LoadedModel "start.h5") (ModelInputsGenerator
     (brain_generator_of sample_labels (default_args "labels" "models")))
     (PFloat 1 (-4)) 50 10000 "models" "wl2" (Some "runs/wl2_exp/model.h5") false
  = ([EvMkdir "models"; EvMkdir "models/logs"], Raise IndexError).
Proof.
  apply (proj1 (resume_raises (LoadedModel "start.h5") (ModelInputsGenerator
     (brain_generator_of sample_labels (default_args "labels" "models")))
     (PFloat 1 (-4)) 50 10000 "models" false) "wl2" "runs/wl2_exp/model.h5");
    [discriminate | reflexivity | reflexivity].
Defined.

(* ===================================================================== *)
(** * The two phases *)

Section TwoPhases.

Variable get_list_labels : pyval -> option string -> list Z.

Lemma phase_is_later (g : generator) (t : list event) :
  Forall (phase_event g) t -> Forall (later_event g) t.
Proof.
  apply Forall_impl. intros ev; destruct ev; cbn; tauto.
Qed.

(** After the setup, a run only builds models and runs phases on the one
    input generator. *)
Lemma training_after_setup (a : training_args) :
  epochs_ok a = true ->
  exists t,
    fst (training get_list_labels a) = (setup_events get_list_labels a ++ t)%list
    /\ Forall (later_event (input_generator_of get_list_labels a)) t.
Proof.
  intros Hok.
  pose proof (fun m n tag ck =>
    phase_is_later _ _
      (train_model_events m (input_generator_of get_list_labels a) (lr a) n
         (steps_per_epoch a) (model_dir a) tag ck false)) as Hph.
  destruct (Z_lt_le_dec 0 (wl2_epochs a)) as [Hw|Hw].
  - rewrite (training_with_wl2 _ _ Hw).
    pose proof (Hph (wl2_model_of get_list_labels a) (wl2_epochs a) "wl2" (checkpoint a)) as H1.
    fold (wl2_phase get_list_labels a) in H1.
    destruct (wl2_phase get_list_labels a) as [t1 [[]|x]].
    + pose proof (Hph (dice_model_of get_list_labels a) (dice_epochs a) "dice"
                      (Some (wl2_snapshot a))) as H2.
      fold (dice_phase get_list_labels a (Some (wl2_snapshot a))) in H2.
      destruct (dice_phase get_list_labels a (Some (wl2_snapshot a))) as [t2 r].
      cbn [fst] in *. eexists. split; [reflexivity|].
      repeat (apply Forall_app; split); try assumption; repeat constructor.
    + cbn [fst] in *. eexists. split; [reflexivity|].
      repeat (apply Forall_app; split); try assumption; repeat constructor.
  - assert (Hd : 0 < dice_epochs a).
    { unfold epochs_ok in Hok. apply orb_true_iff in Hok as [H|H];
        apply Z.gtb_lt in H; lia. }
    rewrite (training_dice_only _ _ Hw Hd).
    pose proof (Hph (dice_model_of get_list_labels a) (dice_epochs a) "dice"
                    (checkpoint a)) as H2.
    fold (dice_phase get_list_labels a (checkpoint a)) in H2.
    destruct (dice_phase get_list_labels a (checkpoint a)) as [t2 r].
    cbn [fst] in *. eexists. split; [reflexivity|].
    repeat (apply Forall_app; split); try assumption; repeat constructor.
Qed.

(** A phase that returns has fitted exactly once; a phase that raises has
    not fitted. *)
Lemma train_model_one_fit (m : model) (g : generator) (learning_rate : pyval)
    (n_epochs n_steps : Z) (model_dir tag : string) (ckpt : option string)
    (reinit : bool) :
  match train_model m g learning_rate n_epochs n_steps model_dir tag ckpt reinit with
  | (t, Ok _) =>
      exists m' e,
        filter is_fit t
        = [EvFitGenerator m' g n_epochs n_steps (callbacks_of model_dir tag) e]
  | (t, Raise _) => filter is_fit t = []
  end.
Proof.
  rewrite train_model_trace.
  destruct (init_epoch_of tag ckpt) as [e|x]; [|reflexivity].
  destruct ckpt as [p|]; [destruct (reloads tag (Some p) reinit)|];
    eexists; eexists; reflexivity.
Qed.

End TwoPhases.

Section OccurrenceFacts.

Lemma prefix_app_l (m x y : string) :
  prefix m x = true -> prefix m (x ++ y) = true.
Proof.
  revert x. induction m as [|c m IH]; intros x H.
  - apply prefix_nil.
  - destruct x as [|c' x']; [discriminate H|].
    change (String c' x' ++ y) with (String c' (x' ++ y)).
    cbn [prefix] in *. destruct (ascii_dec c c'); [now apply IH | discriminate H].
Qed.

Lemma contains_app_l (m x y : string) :
  PyStr.contains m x = true -> PyStr.contains m (x ++ y) = true.
Proof.
  induction x as [|c x IH]; intros H.
  - cbn [PyStr.contains] in H. rewrite orb_false_r in H.
    apply contains_prefix. now apply (prefix_app_l m "" y).
  - cbn [PyStr.contains] in H. apply orb_true_iff in H as [H|H].
    + apply contains_prefix. now apply prefix_app_l.
    + change (String c x ++ y) with (String c (x ++ y)).
      cbn [PyStr.contains]. rewrite (IH H). apply orb_true_r.
Qed.

Lemma contains_dir_prefix (m d y : string) :
  PyStr.contains m d = true -> PyStr.contains m (dir_prefix d ++ y) = true.
Proof.
  intros H. unfold dir_prefix. destruct d as [|c r].
  - cbn [PyStr.contains] in H. rewrite orb_false_r in H.
    apply contains_prefix. now apply (prefix_app_l m "" y).
  - destruct (PosixPath.ends_with_slash (String c r)).
    + now apply contains_app_l.
    + rewrite app_assoc_str. now apply contains_app_l.
Qed.

End OccurrenceFacts.

(* ===================================================================== *)
(** * Counting events *)

Section CountFacts.

Lemma filter_none {A : Type} (f : A -> bool) (P : A -> Prop) (l : list A) :
  (forall x, P x -> f x = false) -> Forall P l -> filter f l = [].
Proof.
  intros Hf H. induction H as [|x l Hx _ IH]; [reflexivity|].
  cbn [filter]. now rewrite (Hf _ Hx).
Qed.

Lemma later_not_brain_generator (g : generator) (ev : event) :
  later_event g ev -> is_brain_generator ev = false.
Proof. destruct ev; cbn; tauto. Qed.

Lemma later_not_build_generator (g : generator) (ev : event) :
  later_event g ev -> is_build_generator ev = false.
Proof. destruct ev; cbn; tauto. Qed.

Lemma later_not_unet (g : generator) (ev : event) :
  later_event g ev -> is_unet ev = false.
Proof. destruct ev; cbn; tauto. Qed.

End CountFacts.

(* ===================================================================== *)
(** * The dice phase after a wl2 phase *)

Lemma wl2_snapshot_misread (a : training_args) :
  0 < wl2_epochs a ->
  PyStr.contains "dice" (model_dir a) = true ->
  init_epoch_of "dice" (Some (wl2_snapshot a)) = Raise IndexError.
Proof.
  intros Hw Hd. unfold init_epoch_of, wl2_snapshot.
  assert (Hrel : prefix "/" ("wl2_" ++ PyStr.fmt_03d (wl2_epochs a) ++ ".h5") = false)
    by reflexivity.
  assert (Hdig : 0 <= wl2_epochs a) by lia.
  rewrite (join_relative _ _ Hrel), (contains_dir_prefix _ _ _ Hd).
  rewrite <- (join_relative _ _ Hrel).
  apply parse_epoch_absent; [discriminate|].
  rewrite basename_join; [| exact Hrel |].
  - apply contains_first_char.
    change ("wl2_" ++ PyStr.fmt_03d (wl2_epochs a) ++ ".h5")
      with ("wl2" ++ "_" ++ PyStr.fmt_03d (wl2_epochs a) ++ ".h5").
    rewrite all_chars_app, (snapshot_tail_absent "d" _ eq_refl Hdig). reflexivity.
  - change ("wl2_" ++ PyStr.fmt_03d (wl2_epochs a) ++ ".h5")
      with ("wl2_" ++ (PyStr.fmt_03d (wl2_epochs a) ++ ".h5")).
    rewrite !all_chars_app.
    rewrite (all_chars_weaken _ _ _ (fun c => digit_other_than "/" c eq_refl)
               (fmt_03d_digits _ Hdig)).
    reflexivity.
Qed.

Lemma prefix_app_boundary (m x : string) (c : ascii) (y : string) :
  all_chars (other_than c) m = true ->
  prefix m (x ++ String c y) = prefix m x.
Proof.
  revert x. induction m as [|a m IH]; intros x H.
  - now rewrite !prefix_nil.
  - cbn [all_chars] in H. apply andb_true_iff in H as [Ha Hm].
    unfold other_than in Ha. apply negb_true_iff, Ascii.eqb_neq in Ha.
    destruct x as [|b x].
    + cbn [append prefix]. destruct (ascii_dec a c); [now elim Ha | reflexivity].
    + change (String b x ++ String c y) with (String b (x ++ String c y)).
      cbn [prefix]. destruct (ascii_dec a b); [now apply IH | reflexivity].
Qed.

Lemma contains_app_boundary (m x : string) (c : ascii) (y : string) :
  all_chars (other_than c) m = true ->
  PyStr.contains m (x ++ String c y)
  = PyStr.contains m x || PyStr.contains m (String c y).
Proof.
  intros H. induction x as [|b x IH].
  - cbn [append]. destruct m as [|a m]; [reflexivity|].
    cbn [PyStr.contains prefix orb]. reflexivity.
  - change (String b x ++ String c y) with (String b (x ++ String c y)).
    cbn [PyStr.contains].
    change (String b (x ++ String c y)) with (String b x ++ String c y).
    now rewrite (prefix_app_boundary _ _ _ _ H), IH, orb_assoc.
Qed.

(** The checkpoint built after the wl2 phase is the file that the wl2 saver
    writes at epoch [wl2_epochs]. *)
Lemma wl2_snapshot_is_saved (a : training_args) :
  wl2_snapshot a
  = PosixPath.join (model_dir a) (snapshot_name "wl2" (wl2_epochs a)).
Proof. reflexivity. Qed.

(** The intended course: a model directory without [dice] in its name. *)
Lemma wl2_snapshot_foreign (a : training_args) :
  0 < wl2_epochs a ->
  PyStr.contains "dice" (model_dir a) = false ->
  PyStr.contains "dice" (wl2_snapshot a) = false.
Proof.
  intros Hw Hd. unfold wl2_snapshot.
  assert (Hrel : prefix "/" ("wl2_" ++ PyStr.fmt_03d (wl2_epochs a) ++ ".h5") = false)
    by reflexivity.
  assert (Hdig : 0 <= wl2_epochs a) by lia.
  assert (Hname : forall s, all_chars (other_than "d") s = true ->
            PyStr.contains "dice"
              (s ++ "wl2" ++ "_" ++ PyStr.fmt_03d (wl2_epochs a) ++ ".h5") = false).
  { intros s Hs. apply contains_first_char.
    rewrite (all_chars_app _ s), Hs, (all_chars_app _ "wl2").
    now rewrite (snapshot_tail_absent "d" _ eq_refl Hdig). }
  rewrite (join_relative _ _ Hrel). unfold dir_prefix.
  destruct (model_dir a) as [|c r] eqn:E.
  - exact (Hname "" eq_refl).
  - destruct (PosixPath.ends_with_slash (String c r)).
    + change ("wl2_" ++ PyStr.fmt_03d (wl2_epochs a) ++ ".h5")
        with (String "w" ("l2_" ++ PyStr.fmt_03d (wl2_epochs a) ++ ".h5")).
      rewrite contains_app_boundary by reflexivity. rewrite Hd.
      exact (Hname "" eq_refl).
    + rewrite app_assoc_str.
      change ("/" ++ "wl2_" ++ PyStr.fmt_03d (wl2_epochs a) ++ ".h5")
        with (String "/" ("wl2_" ++ PyStr.fmt_03d (wl2_epochs a) ++ ".h5")).
      rewrite contains_app_boundary by reflexivity. rewrite Hd.
      exact (Hname "/" eq_refl).
Qed.

Lemma dice_after_wl2 (get_list_labels : pyval -> option string -> list Z)
    (a : training_args) :
  0 < wl2_epochs a ->
  PyStr.contains "dice" (model_dir a) = false ->
  dice_phase get_list_labels a (Some (wl2_snapshot a))
  = ((phase_setup (model_dir a)
      ++ [EvLoadWeights (dice_model_of get_list_labels a) (wl2_snapshot a) true;
          EvCompile (dice_model_of get_list_labels a) (Adam (lr a)) IdentityLoss;
          EvFitGenerator (dice_model_of get_list_labels a)
            (input_generator_of get_list_labels a) (dice_epochs a)
            (steps_per_epoch a) (callbacks_of (model_dir a) "dice") 0])%list,
     Ok tt).
Proof.
  intros Hw Hd. unfold dice_phase. rewrite train_model_trace.
  unfold init_epoch_of, reloads.
  now rewrite (wl2_snapshot_foreign a Hw Hd).
Qed.

(** C5, where the code departs from it.  With [wl2_epochs] positive and a
    model directory whose name holds [dice], the checkpoint that [training]
    builds for the dice phase is read as a dice snapshot: the dice phase
    raises [IndexError] after creating its directories, the run does not
    return, and every fit of the run belongs to the wl2 phase. *)
Theorem dice_phase_lost (get_list_labels : pyval -> option string -> list Z)
    (a : training_args) :
  0 < wl2_epochs a ->
  PyStr.contains "dice" (model_dir a) = true ->
  dice_phase get_list_labels a (Some (wl2_snapshot a))
  = (phase_setup (model_dir a), Raise IndexError)
  /\ snd (training get_list_labels a) <> Ok tt
  /\ forall ev,
       In ev (fst (training get_list_labels a)) -> is_fit ev = true ->
       exists m' i,
         ev = EvFitGenerator m' (input_generator_of get_list_labels a)
                (wl2_epochs a) (steps_per_epoch a)
                (callbacks_of (model_dir a) "wl2") i.
Proof.
  intros Hw Hd.
  assert (Hdice : dice_phase get_list_labels a (Some (wl2_snapshot a))
                  = (phase_setup (model_dir a), Raise IndexError)).
  { unfold dice_phase. now rewrite train_model_trace, (wl2_snapshot_misread a Hw Hd). }
  split; [exact Hdice|].
  rewrite (training_with_wl2 _ _ Hw), Hdice.
  pose proof (train_model_fits (wl2_model_of get_list_labels a)
                (input_generator_of get_list_labels a) (lr a) (wl2_epochs a)
                (steps_per_epoch a) (model_dir a) "wl2" (checkpoint a) false) as Hfit.
  fold (wl2_phase get_list_labels a) in Hfit.
  destruct (wl2_phase get_list_labels a) as [t1 [[]|x]]; cbn [fst snd] in *.
  - split; [discriminate|].
    intros ev Hin Hf. apply Hfit; [|exact Hf].
    unfold setup_events, wl2_models, dice_models, phase_setup in Hin.
    cbn [app In] in Hin.
    repeat (destruct Hin as [<- | Hin]; [discriminate Hf|]).
    apply in_app_or in Hin as [Hin|Hin]; [exact Hin|].
    cbn [In] in Hin.
    repeat (destruct Hin as [<- | Hin]; [discriminate Hf|]). now elim Hin.
  - split; [discriminate|].
    intros ev Hin Hf. apply Hfit; [|exact Hf].
    unfold setup_events, wl2_models in Hin. cbn [app In] in Hin.
    repeat (destruct Hin as [<- | Hin]; [discriminate Hf|]). exact Hin.
Qed.

Lemma dice_phase_lost_witness :
  training sample_labels (default_args "labels" "dice_models")
  = ((setup_events sample_labels (default_args "labels" "dice_models")
      ++ wl2_models sample_labels (default_args "labels" "dice_models")
      ++ [EvMkdir "dice_models"; EvMkdir "dice_models/logs";
          EvCompile (wl2_model_of sample_labels (default_args "labels" "dice_models"))
            (Adam (PFloat 1 (-4))) IdentityLoss;
          EvFitGenerator (wl2_model_of sample_labels (default_args "labels" "dice_models"))
            (input_generator_of sample_labels (default_args "labels" "dice_models"))
            1 10000 [ModelCheckpoint "dice_models/wl2_{epoch:03d}.h5" 1] 0]
      ++ dice_models sample_labels (default_args "labels" "dice_models")
      ++ [EvMkdir "dice_models"; EvMkdir "dice_models/logs"])%list,
     Raise IndexError)
  /\ snd (training sample_labels (default_args "labels" "dice_models")) <> Ok tt.
Proof.
  split.
  - reflexivity.
  - apply (dice_phase_lost sample_labels (default_args "labels" "dice_models"));
      [simpl; lia | reflexivity].
Defined.

(* ===================================================================== *)
(** * One generator for the whole run *)

(** C7.  A run that fails the epochs check builds nothing.  A run that
    passes it starts with the construction of the [BrainGenerator], of the
    network and of the input generator; the [BrainGenerator] and the input
    generator are built exactly once in the whole run, and every fit of the
    run, all of which come after, consumes that input generator.  When both
    phases complete there are exactly two fits, the wl2 one and the dice
    one, on this same generator. *)
Theorem one_generator (get_list_labels : pyval -> option string -> list Z)
    (a : training_args) :
  let g := input_generator_of get_list_labels a in
  let tr := fst (training get_list_labels a) in
  (epochs_ok a = false -> tr = [])
  /\ (epochs_ok a = true ->
      exists t,
        tr = (EvBrainGenerator (brain_generator_of get_list_labels a)
              :: EvUnet (unet_of get_list_labels a)
              :: EvBuildTrainingGenerator
                   (ModelInputsGenerator (brain_generator_of get_list_labels a))
                   (batchsize a)
              :: t)
        /\ filter is_brain_generator tr
           = [EvBrainGenerator (brain_generator_of get_list_labels a)]
        /\ filter is_build_generator tr
           = [EvBuildTrainingGenerator
                (ModelInputsGenerator (brain_generator_of get_list_labels a))
                (batchsize a)]
        /\ forall m' g' n s cb i,
             In (EvFitGenerator m' g' n s cb i) tr ->
             g' = g /\ In (EvFitGenerator m' g' n s cb i) t)
  /\ (0 < wl2_epochs a -> snd (training get_list_labels a) = Ok tt ->
      exists m1 e1 m2 e2,
        filter is_fit tr
        = [EvFitGenerator m1 g (wl2_epochs a) (steps_per_epoch a)
             (callbacks_of (model_dir a) "wl2") e1;
           EvFitGenerator m2 g (dice_epochs a) (steps_per_epoch a)
             (callbacks_of (model_dir a) "dice") e2]).
Proof.
  intros g tr. subst g tr. split; [|split].
  - intros H. now rewrite (training_rejected _ _ H).
  - intros H. destruct (training_after_setup get_list_labels a H) as (t & Et & Ht).
    exists t. rewrite Et. unfold setup_events. cbn [app filter is_brain_generator
      is_build_generator].
    rewrite (filter_none _ _ _ (later_not_brain_generator _) Ht).
    rewrite (filter_none _ _ _ (later_not_build_generator _) Ht).
    split; [reflexivity|]. split; [reflexivity|]. split; [reflexivity|].
    intros m' g' n s cb i Hin. cbn [In] in Hin.
    repeat (destruct Hin as [Hin|Hin]; [discriminate Hin|]).
    split; [|exact Hin].
    rewrite Forall_forall in Ht. exact (Ht _ Hin).
  - intros Hw. rewrite (training_with_wl2 _ _ Hw).
    pose proof (train_model_one_fit (wl2_model_of get_list_labels a)
                  (input_generator_of get_list_labels a) (lr a) (wl2_epochs a)
                  (steps_per_epoch a) (model_dir a) "wl2" (checkpoint a) false) as F1.
    fold (wl2_phase get_list_labels a) in F1.
    destruct (wl2_phase get_list_labels a) as [t1 [[]|x]]; [|discriminate].
    pose proof (train_model_one_fit (dice_model_of get_list_labels a)
                  (input_generator_of get_list_labels a) (lr a) (dice_epochs a)
                  (steps_per_epoch a) (model_dir a) "dice"
                  (Some (wl2_snapshot a)) false) as F2.
    fold (dice_phase get_list_labels a (Some (wl2_snapshot a))) in F2.
    destruct (dice_phase get_list_labels a (Some (wl2_snapshot a))) as [t2 [[]|x]];
      [|discriminate].
    intros _. destruct F1 as (m1 & e1 & F1). destruct F2 as (m2 & e2 & F2).
    exists m1, e1, m2, e2. cbn [fst].
    unfold setup_events, wl2_models, dice_models.
    cbn [app filter is_fit]. rewrite filter_app. cbn [filter is_fit].
    now rewrite F1, F2.
Qed.

Lemma one_generator_witness :
  filter is_brain_generator (fst (training sample_labels (default_args "labels" "models")))
  = [EvBrainGenerator (brain_generator_of sample_labels (default_args "labels" "models"))]
  /\ exists m1 e1 m2 e2,
       filter is_fit (fst (training sample_labels (default_args "labels" "models")))
       = [EvFitGenerator m1
            (input_generator_of sample_labels (default_args "labels" "models"))
            1 10000 (callbacks_of "models" "wl2") e1;
          EvFitGenerator m2
            (input_generator_of sample_labels (default_args "labels" "models"))
            50 10000 (callbacks_of "models" "dice") e2].
Proof.
  pose proof (one_generator sample_labels (default_args "labels" "models")) as H.
  cbv zeta in H. destruct H as (_ & H2 & H3). split.
  - destruct (H2 eq_refl) as (t & _ & Hb & _). exact Hb.
  - apply H3; [simpl; lia | reflexivity].
Defined.

(* ===================================================================== *)
(** * The number of classes of the network *)

Section UniqueFacts.

Lemma insert_unique_In (x y : Z) (l : list Z) :
  In y (insert_unique x l) <-> y = x \/ In y l.
Proof.
  induction l as [|h t IH]; cbn [insert_unique].
  - cbn. intuition.
  - destruct (x <? h) eqn:E1; [cbn; intuition|].
    destruct (x =? h) eqn:E2.
    + apply Z.eqb_eq in E2. subst. cbn. intuition.
    + cbn [In]. rewrite IH. intuition.
Qed.

Lemma np_unique_In (y : Z) (l : list Z) : In y (np_unique l) <-> In y l.
Proof.
  induction l as [|h t IH]; [reflexivity|].
  cbn [np_unique fold_right]. fold (np_unique t).
  rewrite insert_unique_In, IH. cbn. intuition.
Qed.

Lemma insert_unique_sorted (x : Z) (l : list Z) :
  StronglySorted Z.lt l -> StronglySorted Z.lt (insert_unique x l).
Proof.
  induction l as [|h t IH]; intros Hs; cbn [insert_unique].
  - repeat constructor.
  - inversion Hs as [|? ? Ht Hh]; subst.
    destruct (x <? h) eqn:E1.
    + apply Z.ltb_lt in E1. constructor; [exact Hs|].
      constructor; [exact E1|].
      eapply Forall_impl; [|exact Hh]. intros z Hz. cbn beta in Hz. lia.
    + destruct (x =? h) eqn:E2; [exact Hs|].
      apply Z.ltb_ge in E1. apply Z.eqb_neq in E2.
      constructor; [apply IH, Ht|].
      apply Forall_forall. intros z Hz. apply insert_unique_In in Hz as [-> | Hz].
      * lia.
      * rewrite Forall_forall in Hh. exact (Hh _ Hz).
Qed.

Lemma np_unique_sorted (l : list Z) : StronglySorted Z.lt (np_unique l).
Proof.
  induction l as [|h t IH]; [constructor|].
  cbn [np_unique fold_right]. apply insert_unique_sorted, IH.
Qed.

Lemma sorted_NoDup (l : list Z) : StronglySorted Z.lt l -> NoDup l.
Proof.
  induction 1 as [|h t Ht IH Hh]; constructor; [|exact IH].
  intros Hin. rewrite Forall_forall in Hh. specialize (Hh _ Hin). lia.
Qed.

Lemma np_unique_length (l : list Z) :
  List.length (np_unique l) = List.length (nodup Z.eq_dec l).
Proof.
  apply Permutation_length, NoDup_Permutation.
  - apply sorted_NoDup, np_unique_sorted.
  - apply NoDup_nodup.
  - intros y. now rewrite np_unique_In, nodup_In.
Qed.

End UniqueFacts.

(** C9.  Without [segmentation_labels] the segmentation labels are the
    generation labels.  In every case the network is built with as many
    output classes as there are distinct values among the segmentation
    labels, so that labels merged to one value count for one class; this
    network is the only one the run builds. *)
Theorem segmentation_classes (get_list_labels : pyval -> option string -> list Z)
    (a : training_args) :
  (segmentation_labels a = PNone ->
   resolved_segmentation_labels get_list_labels a
   = resolved_generation_labels get_list_labels a)
  /\ nb_labels_of (unet_of get_list_labels a)
     = Some (List.length (nodup Z.eq_dec (resolved_segmentation_labels get_list_labels a)))
  /\ (epochs_ok a = true ->
      filter is_unet (fst (training get_list_labels a))
      = [EvUnet (unet_of get_list_labels a)]).
Proof.
  split; [|split].
  - intros H. unfold resolved_segmentation_labels. now rewrite H.
  - cbn [unet_of nb_labels_of]. unfold n_segmentation_labels.
    now rewrite np_unique_length.
  - intros H. destruct (training_after_setup get_list_labels a H) as (t & Et & Ht).
    rewrite Et. unfold setup_events. cbn [app filter is_unet].
    now rewrite (filter_none _ _ _ (later_not_unet _) Ht).
Qed.


Lemma segmentation_classes_witness :
  nb_labels_of
    (unet_of sample_labels
       (with_segmentation_labels (default_args "labels" "models")
          (PSeq [PInt 0; PInt 2; PInt 2; PInt 3])))
  = Some 3%nat
  /\ filter is_unet
       (fst (training sample_labels
               (with_segmentation_labels (default_args "labels" "models")
                  (PSeq [PInt 0; PInt 2; PInt 2; PInt 3]))))
     = [EvUnet (unet_of sample_labels
                  (with_segmentation_labels (default_args "labels" "models")
                     (PSeq [PInt 0; PInt 2; PInt 2; PInt 3])))].
Proof.
  split.
  - reflexivity.
  - apply (proj2 (proj2 (segmentation_classes sample_labels
             (with_segmentation_labels (default_args "labels" "models")
                (PSeq [PInt 0; PInt 2; PInt 2; PInt 3]))))).
    reflexivity.
Defined.


(* ===================================================================== *)
(** * Further properties of [train_model] *)

Section SplitFacts.

Lemma split_scan_nonempty (sep : string) (k : nat) (cur s : string) :
  exists a rest, PyStr.split_scan sep k cur s = a :: rest.
Proof.
  revert k cur. induction s as [|c r IH]; intros k cur.
  - cbn. eauto.
  - cbn [PyStr.split_scan]. destruct k as [|k]; [|apply IH].
    destruct (prefix sep (String c r)); [eauto | apply IH].
Qed.

Lemma split_scan_two (c : ascii) (m cur s : string) :
  PyStr.contains (String c m) s = true ->
  exists a b rest, PyStr.split_scan (String c m) 0 cur s = a :: b :: rest.
Proof.
  revert cur. induction s as [|x r IH]; intros cur H.
  - discriminate H.
  - cbn [PyStr.contains] in H. cbn [PyStr.split_scan].
    destruct (prefix (String c m) (String x r)) eqn:E.
    + destruct (split_scan_nonempty (String c m)
                  (Nat.pred (String.length (String c m))) "" r) as (b & rest & Hb).
      rewrite Hb. eauto.
    + cbn [orb] in H. apply IH, H.
Qed.

Lemma int_exn (s : string) (x : exn) : PyStr.int s = Raise x -> x = ValueError.
Proof.
  unfold PyStr.int.
  destruct (match PyStr.strip s with
            | String "-" r => (true, r)
            | String "+" r => (false, r)
            | _ => (false, PyStr.strip s)
            end) as [neg body].
  destruct (PyStr.int_digits 0 false body); [discriminate | now intros [= <-]].
Qed.

End SplitFacts.

(** X1.  Which exception the epoch parse raises.  With an empty tag it
    raises [ValueError] on every path (the separator of [split] is empty).
    With a non-empty tag it raises [IndexError] exactly when the tag does
    not occur in the base name of the path; when the tag occurs there, the
    parse returns an epoch or raises [ValueError], nothing else. *)
Theorem parse_epoch_errors (tag p : string) :
  (tag = "" -> parse_epoch tag p = Raise ValueError)
  /\ (tag <> "" ->
      (parse_epoch tag p = Raise IndexError
       <-> PyStr.contains tag (PosixPath.basename p) = false)
      /\ (PyStr.contains tag (PosixPath.basename p) = true ->
          (exists e, parse_epoch tag p = Ok e)
          \/ parse_epoch tag p = Raise ValueError)).
Proof.
  split.
  - intros ->. reflexivity.
  - intros Ht. destruct tag as [|c m]; [now elim Ht|].
    assert (Hin : PyStr.contains (String c m) (PosixPath.basename p) = true ->
                  (exists e, parse_epoch (String c m) p = Ok e)
                  \/ parse_epoch (String c m) p = Raise ValueError).
    { intros H. unfold parse_epoch, PyStr.split.
      destruct (split_scan_two c m "" _ H) as (a & b & rest & E).
      rewrite E. cbn [result_bind PyStr.index nth_error].
      destruct (PyStr.int (PyStr.slice b 1 (-3))) as [e|x] eqn:Ei; [eauto|].
      right. now rewrite (int_exn _ _ Ei). }
    split; [split|exact Hin].
    + intros H. destruct (PyStr.contains (String c m) (PosixPath.basename p)) eqn:E;
        [|reflexivity].
      destruct (Hin eq_refl) as [[e He] | He]; rewrite He in H; discriminate H.
    + intros H. apply parse_epoch_absent; [discriminate | exact H].
Qed.

Lemma parse_epoch_errors_witness :
  parse_epoch "dice" "dice_models/wl2_001.h5" = Raise IndexError
  /\ ((exists e, parse_epoch "dice" "runs/dice_final.h5" = Ok e)
      \/ parse_epoch "dice" "runs/dice_final.h5" = Raise ValueError).
Proof.
  split.
  - apply (proj2 (parse_epoch_errors "dice" "dice_models/wl2_001.h5")).
    + discriminate.
    + reflexivity.
  - apply (proj2 (parse_epoch_errors "dice" "runs/dice_final.h5")).
    + discriminate.
    + reflexivity.
Defined.


(* ===================================================================== *)
(** * Saving, then resuming *)

Section SaveResumeFacts.

Lemma format_epoch_named (x tag : string) (e : Z) :
  tag = "wl2" \/ tag = "dice" -> brace_free x = true ->
  PyStr.format_epoch (x ++ tag ++ "_{epoch:03d}.h5") e
  = Some (x ++ snapshot_name tag e).
Proof.
  intros Htag Hx. unfold snapshot_name.
  assert (Hb : brace_free tag = true) by (destruct Htag as [-> | ->]; reflexivity).
  change (tag ++ "_{epoch:03d}.h5") with (tag ++ "_" ++ "{epoch:03d}" ++ ".h5").
  rewrite <- !(app_assoc_str tag "_"), <- !(app_assoc_str x).
  apply format_epoch_template; [|reflexivity].
  now rewrite !brace_free_app, Hx, Hb.
Qed.

Lemma brace_free_dir_prefix (d : string) :
  brace_free d = true -> brace_free (dir_prefix d) = true.
Proof.
  intros H. unfold dir_prefix. destruct d as [|c r]; [reflexivity|].
  destruct (PosixPath.ends_with_slash (String c r)); [exact H|].
  now rewrite brace_free_app, H.
Qed.

Lemma snapshot_name_plain (tag : string) (e : Z) :
  tag = "wl2" \/ tag = "dice" -> 0 <= e ->
  all_chars (other_than "/") (snapshot_name tag e) = true.
Proof.
  intros Htag He. unfold snapshot_name.
  change ("_" ++ PyStr.fmt_03d e ++ ".h5") with ("_" ++ (PyStr.fmt_03d e ++ ".h5")).
  rewrite !all_chars_app.
  rewrite (all_chars_weaken _ _ _ (fun c => digit_other_than "/" c eq_refl)
             (fmt_03d_digits e He)).
  destruct Htag as [-> | ->]; reflexivity.
Qed.

Lemma init_epoch_snapshot (d tag : string) (e : Z) :
  tag = "wl2" \/ tag = "dice" -> 0 <= e ->
  init_epoch_of tag (Some (PosixPath.join d (snapshot_name tag e))) = Ok e.
Proof.
  intros Htag He. unfold init_epoch_of.
  rewrite contains_join_snapshot by (apply snapshot_relative, Htag).
  destruct (tag_cases tag Htag) as (c & m & E & Hc & Hs & _). subst tag.
  now apply parse_epoch_snapshot.
Qed.

End SaveResumeFacts.




(** X3.  Saving and resuming compose, whatever the size of the epoch.  For
    the tags [wl2] and [dice], a model directory without braces and every
    epoch [e >= 0], also beyond 999 where the number takes more than three
    digits, the template that [train_model] hands to the saver renders as
    a file of [model_dir] whose base name is tag, underscore, padded [e],
    [.h5], and the resume logic reads [e] back from that file. *)
Theorem saved_snapshot_resumes (model_dir tag : string) (e : Z) :
  tag = "wl2" \/ tag = "dice" ->
  0 <= e ->
  brace_free model_dir = true ->
  exists f,
    PyStr.format_epoch (save_file_name model_dir tag) e = Some f
    /\ f = PosixPath.join model_dir (snapshot_name tag e)
    /\ PosixPath.basename f = snapshot_name tag e
    /\ init_epoch_of tag (Some f) = Ok e.
Proof.
  intros Htag He Hd.
  exists (PosixPath.join model_dir (snapshot_name tag e)).
  split; [|split; [reflexivity | split]].
  - rewrite (save_file_name_relative _ _ Htag).
    rewrite join_relative by (apply snapshot_relative, Htag).
    apply format_epoch_named; [exact Htag | apply brace_free_dir_prefix, Hd].
  - apply basename_join; [apply snapshot_relative, Htag|].
    now apply snapshot_name_plain.
  - now apply init_epoch_snapshot.
Qed.

Lemma saved_snapshot_resumes_witness :
  exists f,
    PyStr.format_epoch (save_file_name "models" "dice") 1234 = Some f
    /\ f = PosixPath.join "models" (snapshot_name "dice" 1234)
    /\ PosixPath.basename f = snapshot_name "dice" 1234
    /\ init_epoch_of "dice" (Some f) = Ok 1234.
Proof.
  apply (saved_snapshot_resumes "models" "dice" 1234);
    [right; reflexivity | lia | reflexivity].
Defined.

(* ===================================================================== *)
(** * Whole runs *)

(** X4.  Resuming the dice phase.  With no wl2 phase and, as checkpoint, a
    dice snapshot of epoch [e] in any directory, a run builds its generator
    and network, then reloads the full model from the checkpoint and fits
    the reloaded model, not the network it has just built, from epoch [e]
    for [dice_epochs] epochs, without compiling it. *)
Theorem dice_run_resumes (get_list_labels : pyval -> option string -> list Z)
    (a : training_args) (d : string) (e : Z) :
  wl2_epochs a <= 0 ->
  0 < dice_epochs a ->
  0 <= e ->
  checkpoint a = Some (PosixPath.join d (snapshot_name "dice" e)) ->
  let ck := PosixPath.join d (snapshot_name "dice" e) in
  training get_list_labels a
  = ((setup_events get_list_labels a
      ++ dice_models get_list_labels a
      ++ [EvMkdir (model_dir a); EvMkdir (PosixPath.join (model_dir a) "logs");
          EvLoadModel ck;
          EvFitGenerator (LoadedModel ck) (input_generator_of get_list_labels a)
            (dice_epochs a) (steps_per_epoch a)
            [ModelCheckpoint (PosixPath.join (model_dir a) "dice_{epoch:03d}.h5") 1;
             TensorBoard (PosixPath.join (model_dir a) "logs") 0 true false]
            e])%list,
     Ok tt).
Proof.
  intros Hw Hd He Hck ck. subst ck.
  rewrite (training_dice_only _ _ Hw Hd). unfold dice_phase.
  rewrite train_model_trace, Hck.
  rewrite (init_epoch_snapshot d "dice" e (or_intror eq_refl) He).
  unfold reloads.
  rewrite contains_join_snapshot by reflexivity.
  reflexivity.
Qed.

Lemma dice_run_resumes_witness :
  snd (training sample_labels
         (args_with "labels" "models" 0 50 (Some "old_run/dice_012.h5")))
  = Ok tt
  /\ filter is_fit
       (fst (training sample_labels
               (args_with "labels" "models" 0 50 (Some "old_run/dice_012.h5"))))
     = [EvFitGenerator (LoadedModel "old_run/dice_012.h5")
          (input_generator_of sample_labels
             (args_with "labels" "models" 0 50 (Some "old_run/dice_012.h5")))
          50 10000
          [ModelCheckpoint "models/dice_{epoch:03d}.h5" 1;
           TensorBoard "models/logs" 0 true false] 12].
Proof.
  pose proof (dice_run_resumes sample_labels
                (args_with "labels" "models" 0 50 (Some "old_run/dice_012.h5"))
                "old_run" 12) as H.
  rewrite H; [split; reflexivity | simpl; lia | simpl; lia | lia | reflexivity].
Defined.

(** X5.  The dice phase after a wl2 phase.  With [wl2_epochs] positive, a
    model directory whose name does not hold [dice], and a wl2 phase that
    returns, the dice phase does not depend on the checkpoint given to the
    run: it loads the weights by name from the last wl2 snapshot into the
    dice model, compiles it afresh with Adam at the learning rate of the run
    and fits it from epoch 0 for [dice_epochs] epochs, and the run returns. *)
Theorem dice_follows_wl2 (get_list_labels : pyval -> option string -> list Z)
    (a : training_args) :
  0 < wl2_epochs a ->
  PyStr.contains "dice" (model_dir a) = false ->
  snd (wl2_phase get_list_labels a) = Ok tt ->
  training get_list_labels a
  = ((setup_events get_list_labels a
      ++ wl2_models get_list_labels a
      ++ fst (wl2_phase get_list_labels a)
      ++ dice_models get_list_labels a
      ++ [EvMkdir (model_dir a); EvMkdir (PosixPath.join (model_dir a) "logs");
          EvLoadWeights (dice_model_of get_list_labels a)
            (PosixPath.join (model_dir a)
               ("wl2_" ++ PyStr.fmt_03d (wl2_epochs a) ++ ".h5")) true;
          EvCompile (dice_model_of get_list_labels a) (Adam (lr a)) IdentityLoss;
          EvFitGenerator (dice_model_of get_list_labels a)
            (input_generator_of get_list_labels a)
            (dice_epochs a) (steps_per_epoch a)
            [ModelCheckpoint (PosixPath.join (model_dir a) "dice_{epoch:03d}.h5") 1;
             TensorBoard (PosixPath.join (model_dir a) "logs") 0 true false]
            0])%list,
     Ok tt).
Proof.
  intros Hw Hd Hok.
  rewrite (training_with_wl2 _ _ Hw), (dice_after_wl2 _ _ Hw Hd).
  destruct (wl2_phase get_list_labels a) as [t1 [[]|x]]; [|discriminate Hok].
  reflexivity.
Qed.

Lemma dice_follows_wl2_witness :
  filter is_load
    (fst (training sample_labels
            (args_with "labels" "models" 2 50 (Some "pretrained/weights.h5"))))
  = [EvLoadWeights
       (wl2_model_of sample_labels
          (args_with "labels" "models" 2 50 (Some "pretrained/weights.h5")))
       "pretrained/weights.h5" true;
     EvLoadWeights
       (dice_model_of sample_labels
          (args_with "labels" "models" 2 50 (Some "pretrained/weights.h5")))
       "models/wl2_002.h5" true].
Proof.
  rewrite (dice_follows_wl2 sample_labels
             (args_with "labels" "models" 2 50 (Some "pretrained/weights.h5")));
    [reflexivity | simpl; lia | reflexivity | reflexivity].
Defined.

(** X6.  A checkpoint that the first phase cannot resume from stops the run
    late.  When the resume logic of the first phase (the wl2 phase if
    [wl2_epochs] is positive, the dice phase otherwise) raises on the
    checkpoint given to [training], the run raises that exception after the
    [BrainGenerator], the network, the input generator and the metrics model
    of that phase have been built and the two directories created: nothing
    is loaded, compiled or fitted, and after a failed wl2 phase the dice
    model is not built. *)
Theorem bad_checkpoint_stops_late
    (get_list_labels : pyval -> option string -> list Z)
    (a : training_args) (x : exn) :
  (0 < wl2_epochs a ->
   init_epoch_of "wl2" (checkpoint a) = Raise x ->
   training get_list_labels a
   = ((setup_events get_list_labels a
       ++ wl2_models get_list_labels a
       ++ [EvMkdir (model_dir a); EvMkdir (PosixPath.join (model_dir a) "logs")])%list,
      Raise x))
  /\ (wl2_epochs a <= 0 -> 0 < dice_epochs a ->
      init_epoch_of "dice" (checkpoint a) = Raise x ->
      training get_list_labels a
      = ((setup_events get_list_labels a
          ++ dice_models get_list_labels a
          ++ [EvMkdir (model_dir a); EvMkdir (PosixPath.join (model_dir a) "logs")])%list,
         Raise x)).
Proof.
  split.
  - intros Hw Hx. rewrite (training_with_wl2 _ _ Hw).
    unfold wl2_phase. now rewrite train_model_trace, Hx.
  - intros Hw Hd Hx. rewrite (training_dice_only _ _ Hw Hd).
    unfold dice_phase. now rewrite train_model_trace, Hx.
Qed.

Lemma bad_checkpoint_stops_late_witness :
  training sample_labels
    (args_with "labels" "models" 0 50 (Some "dice_archive/final.h5"))
  = ((setup_events sample_labels
        (args_with "labels" "models" 0 50 (Some "dice_archive/final.h5"))
      ++ dice_models sample_labels
           (args_with "labels" "models" 0 50 (Some "dice_archive/final.h5"))
      ++ [EvMkdir "models"; EvMkdir "models/logs"])%list,
     Raise IndexError).
Proof.
  apply (proj2 (bad_checkpoint_stops_late sample_labels
                  (args_with "labels" "models" 0 50 (Some "dice_archive/final.h5"))
                  IndexError)).
  - simpl. lia.
  - simpl. lia.
  - reflexivity.
Defined.

(* ===================================================================== *)
(** * Bounds on the number of classes *)

(** X7.  The class count of the network.  [np.unique] of the segmentation
    labels is strictly ascending and has the same members as the labels; so
    the number of classes handed to the network is at most the number of
    segmentation labels, reaches it exactly when the labels are pairwise
    distinct, and is zero only for an empty label list. *)
Theorem class_count_bounds (get_list_labels : pyval -> option string -> list Z)
    (a : training_args) :
  let l := resolved_segmentation_labels get_list_labels a in
  StronglySorted Z.lt (np_unique l)
  /\ (forall x, In x (np_unique l) <-> In x l)
  /\ (n_segmentation_labels get_list_labels a <= List.length l)%nat
  /\ (n_segmentation_labels get_list_labels a = List.length l <-> NoDup l)
  /\ (n_segmentation_labels get_list_labels a = 0%nat <-> l = []).
Proof.
  intros l. unfold n_segmentation_labels. fold l.
  assert (Hnd : NoDup (np_unique l)) by apply sorted_NoDup, np_unique_sorted.
  assert (Hincl : incl (np_unique l) l) by (intros x; apply np_unique_In).
  assert (Hincl' : incl l (np_unique l)) by (intros x; apply np_unique_In).
  split; [apply np_unique_sorted|].
  split; [intros x; apply np_unique_In|].
  split; [now apply NoDup_incl_length|].
  split; [split|split].
  - intros E. apply (NoDup_incl_NoDup (l := np_unique l) (l' := l) Hnd);
      [lia | exact Hincl].
  - intros H. apply Permutation_length, NoDup_Permutation; [exact Hnd | exact H|].
    intros x. apply np_unique_In.
  - intros E. destruct l as [|h t]; [reflexivity|].
    destruct (np_unique (h :: t)) as [|u us] eqn:Eu; [|discriminate E].
    specialize (Hincl' h (or_introl eq_refl)). now elim Hincl'.
  - intros ->. reflexivity.
Qed.

Lemma class_count_bounds_witness :
  (n_segmentation_labels sample_labels
     (with_segmentation_labels (default_args "labels" "models")
        (PSeq [PInt 0; PInt 2; PInt 2; PInt 3])) <= 4)%nat
  /\ ~ NoDup [0; 2; 2; 3].
Proof.
  pose proof (class_count_bounds sample_labels
                (with_segmentation_labels (default_args "labels" "models")
                   (PSeq [PInt 0; PInt 2; PInt 2; PInt 3]))) as H.
  cbv zeta in H. destruct H as (_ & _ & Hle & Hnd & _).
  split.
  - exact Hle.
  - intros Hn. apply Hnd in Hn. discriminate Hn.
Defined.
